(** * NeuroTrain Transcribe API: a shallow embedding of [backend/main.py]

    The service is one FastAPI module: two health endpoints, one
    [/transcribe] handler that writes the upload to a temporary file, shells
    out to ffmpeg, calls Whisper, shapes the reply and removes its temporary
    files, and one catch-all exception handler.

    Python [str] values are modelled by [string] (characters are code points
    below 256), [bytes] by [list byte], the file system by a finite map from
    paths to file contents, and the handler by a state-and-exception monad
    over the file system and an event log.  The external collaborators
    (tempfile, the file object, ffmpeg, Whisper, [os.remove], the web
    framework's [HTTPException.__str__]) are fields of an environment record:
    the handler is a function of them. *)

From Stdlib Require Import ZArith QArith Ascii String Strings.Byte DecimalString Lia.
From stdpp Require Import base option list gmap strings.

Local Open Scope Z_scope.

(** ** Python string operations used by the module *)

Module PyStr.

(** [str.isspace] on one character, for code points below 256: the ASCII
    white space 9..13 and 32, the separators 28..31, NEL (133) and the
    no-break space (160). *)
Definition isspace (c : ascii) : bool :=
  let n := N_of_ascii c in
  ((9 <=? n) && (n <=? 13) || (28 <=? n) && (n <=? 32)
   || (n =? 133) || (n =? 160))%N.

(** [s.lstrip()] *)
Fixpoint lstrip (s : string) : string :=
  match s with
  | EmptyString => EmptyString
  | String c s' => if isspace c then lstrip s' else s
  end.

(** [s.rstrip()] *)
Fixpoint rstrip (s : string) : string :=
  match s with
  | EmptyString => EmptyString
  | String c s' =>
      match rstrip s' with
      | EmptyString => if isspace c then EmptyString else String c EmptyString
      | r => String c r
      end
  end.

(** [s.strip()] *)
Definition strip (s : string) : string := rstrip (lstrip s).

(** [s[:n]] for a non-negative [n] *)
Fixpoint slice_to (n : nat) (s : string) : string :=
  match n, s with
  | S k, String c s' => String c (slice_to k s')
  | _, _ => EmptyString
  end.

(** [s.startswith(p)] *)
Fixpoint startswith (s p : string) {struct p} : bool :=
  match p, s with
  | EmptyString, _ => true
  | String a p', String b s' => if Ascii.eqb a b then startswith s' p' else false
  | String _ _, EmptyString => false
  end.

(** [s[n:]] for a non-negative [n] *)
Fixpoint slice_from (n : nat) (s : string) : string :=
  match n, s with
  | S k, String _ s' => slice_from k s'
  | _, _ => s
  end.

(** [s.endswith(p)] *)
Definition endswith (s p : string) : bool :=
  (String.length p <=? String.length s)%nat
  && String.eqb (slice_from (String.length s - String.length p) s) p.

(** [s.replace(old, new)] for a non-empty [old]: scan from the left, and at
    every position where [old] starts emit [new] and skip [len(old)]
    characters.  [skip] counts the characters of a match still to drop. *)
Fixpoint replace_from (old new : string) (skip : nat) (s : string) : string :=
  match s with
  | EmptyString => EmptyString
  | String c s' =>
      match skip with
      | S k => replace_from old new k s'
      | O =>
          if startswith s old
          then new +:+ replace_from old new (String.length old - 1) s'
          else String c (replace_from old new 0 s')
      end
  end.

Definition replace (s old new : string) : string := replace_from old new 0 s.

(** every character of [s] is white space *)
Fixpoint all_space (s : string) : bool :=
  match s with
  | EmptyString => true
  | String c s' => isspace c && all_space s'
  end.

Definition first_char (s : string) : option ascii :=
  match s with EmptyString => None | String c _ => Some c end.

Fixpoint last_char (s : string) : option ascii :=
  match s with
  | EmptyString => None
  | String c EmptyString => Some c
  | String _ s' => last_char s'
  end.

(** [str(n)] for an integer *)
Definition of_int (n : Z) : string := NilZero.string_of_int (Z.to_int n).

End PyStr.

(** ** Data model *)

(** Exceptions.  Every exception of the model is an instance of Python's
    [Exception]: [HTTPException] is the framework's structured HTTP error,
    [PyError] stands for any other exception and carries what [str(e)]
    returns for it. *)
Inductive Exn :=
| HTTPException (status_code : Z) (detail : string)
| PyError (message : string).

Inductive Result (A : Type) :=
| Returned (a : A)
| Raised (e : Exn).
Arguments Returned {A} a.
Arguments Raised {A} e.

(** [UploadFile]: the declared name and content type, and the bytes
    [await file.read()] returns when it returns; a read that raises is an
    argument of [transcribe_body]. *)
Record UploadFile := {
  filename : option string;
  content_type : option string;
  read : list byte;
}.

Module TranscriptionResponse.
Record t := {
  transcript : string;
  language : string;
  tldr : string;
  duration : option Q;
  status : string;
}.
End TranscriptionResponse.

Module HealthResponse.
Record t := {
  status : string;
  model : string;
  version : string;
}.
End HealthResponse.

(** [subprocess.CompletedProcess], with the fields the handler reads. *)
Record CompletedProcess := {
  returncode : Z;
  stderr : string;
}.

(** The dictionary Whisper's [transcribe] returns, with the three keys the
    handler looks up; [None] is an absent key. *)
Record WhisperResult := {
  r_text : option string;
  r_language : option string;
  r_duration : option Q;
}.

(** What a request does to the outside world, in order. *)
Inductive Event :=
| LogInfo (msg : string)
| LogError (msg : string)
| TempCreated (path : string)
| FileWritten (path : string) (data : list byte)
| WriteFailed (path : string)
| ConverterRun (argv : list string)
| ConverterOutput (path : string)
| RecognizerRun (path : string) (language : option string) (fp16 : bool)
| Removed (path : string)
| RemoveFailed (path : string).

(** The files on disk and the two handler locals that the [finally] block
    reads. *)
Record State := {
  fs : gmap string (list byte);
  tmp_input_path : option string;
  wav_path : option string;
}.

(** The external collaborators.  Each one sees its arguments and the files on
    disk. *)
Record Env := {
  (** [tempfile.NamedTemporaryFile]: the directory, prefix and random part of
      the name it picks, or the exception it raises *)
  tempfile_stem : gmap string (list byte) -> Exn + string;
  (** the size of the buffer of the file object [tempfile] returns (the
      block size of the device or [io.DEFAULT_BUFFER_SIZE]) *)
  buffer_size : nat;
  (** [tmp_file.write(data)] for data larger than the buffer, which is
      written through: the exception it raises, if any *)
  write_error : string -> list byte -> gmap string (list byte) -> option Exn;
  (** closing the file when the [with] block ends, which flushes the buffer:
      the exception it raises, if any *)
  close_error : string -> gmap string (list byte) -> option Exn;
  (** how many of the bytes had reached the file when the write, or the
      flush at close, raised *)
  bytes_landed : string -> list byte -> gmap string (list byte) -> nat;
  (** [subprocess.run(argv, capture_output=True, text=True)] for ffmpeg: an
      exception, or the completed process and the bytes ffmpeg wrote to its
      output path, if it wrote any *)
  ffmpeg : list string -> gmap string (list byte) ->
           Exn + (CompletedProcess * option (list byte));
  (** [model.transcribe(path, language=..., fp16=...)] *)
  whisper_transcribe : string -> option string -> bool ->
                       gmap string (list byte) -> Exn + WhisperResult;
  (** [os.remove(path)] on an existing file: the exception it raises, if any *)
  remove_error : string -> gmap string (list byte) -> option Exn;
  (** [HTTPException.__str__] *)
  str_HTTPException : Z -> string -> string;
}.

(** [str(e)] *)
Definition str (env : Env) (e : Exn) : string :=
  match e with
  | HTTPException c d => str_HTTPException env c d
  | PyError m => m
  end.

(** Starlette's [HTTPException.__str__]: [f"{self.status_code}: {self.detail}"]. *)
Definition starlette_str (status_code : Z) (detail : string) : string :=
  PyStr.of_int status_code +:+ ": " +:+ detail.

(** ** The monad of the handler: state, exceptions and an event log *)

Definition M (A : Type) : Type := State -> Result A * State * list Event.

Global Instance M_ret : MRet M := fun A a s => (Returned a, s, []).

Global Instance M_bind : MBind M := fun A B f m s =>
  match m s with
  | (Returned a, s', evs) =>
      match f a s' with (r, s'', evs') => (r, s'', evs ++ evs') end
  | (Raised e, s', evs) => (Raised e, s', evs)
  end.

Definition raise {A} (e : Exn) : M A := fun s => (Raised e, s, []).

Definition emit (ev : Event) : M unit := fun s => (Returned tt, s, [ev]).

Definition get_state : M State := fun s => (Returned s, s, []).

(** [try: m  except Exception as e: h e] *)
Definition try_except {A} (m : M A) (h : Exn -> M A) : M A := fun s =>
  match m s with
  | (Raised e, s', evs) =>
      match h e s' with (r, s'', evs') => (r, s'', evs ++ evs') end
  | r => r
  end.

(** [try: m  finally: fin]: [fin] always runs; when it raises, its exception
    replaces the outcome of [m]. *)
Definition try_finally {A} (m : M A) (fin : M unit) : M A := fun s =>
  match m s with
  | (r, s', evs) =>
      match fin s' with
      | (Returned _, s'', evs') => (r, s'', evs ++ evs')
      | (Raised e, s'', evs') => (Raised e, s'', evs ++ evs')
      end
  end.

(** [for x in l: f x] *)
Fixpoint for_each {A} (l : list A) (f : A -> M unit) : M unit :=
  match l with
  | [] => mret tt
  | x :: l' => f x ≫= fun _ => for_each l' f
  end.

Definition result_of {A} (r : Result A * State * list Event) : Result A := r.1.1.
Definition state_of {A} (r : Result A * State * list Event) : State := r.1.2.
Definition events_of {A} (r : Result A * State * list Event) : list Event := r.2.

Definition with_fs (f : gmap string (list byte)) (s : State) : State :=
  {| fs := f; tmp_input_path := tmp_input_path s; wav_path := wav_path s |}.

Definition set_tmp_input_path (p : option string) : M unit := fun s =>
  (Returned tt, {| fs := fs s; tmp_input_path := p; wav_path := wav_path s |}, []).

Definition set_wav_path (p : option string) : M unit := fun s =>
  (Returned tt, {| fs := fs s; tmp_input_path := tmp_input_path s; wav_path := p |}, []).

(** ** HTTP replies *)

Inductive Body :=
| Detail (detail : string)
| Transcription (r : TranscriptionResponse.t)
| Health (r : HealthResponse.t).

Record JSONResponse := {
  status_code : Z;
  content : Body;
}.

(** ** The module *)

Section Handler.

Context (env : Env).

Definition logger_info (msg : string) : M unit := emit (LogInfo msg).
Definition logger_error (msg : string) : M unit := emit (LogError msg).

(** [tempfile.NamedTemporaryFile(delete=False, suffix=suffix)]: the file is
    created exclusively, so a name that is taken is never returned. *)
Definition NamedTemporaryFile (suffix : string) : M string := fun s =>
  match tempfile_stem env (fs s) with
  | inl e => (Raised e, s, [])
  | inr stem =>
      let name := stem +:+ suffix in
      match fs s !! name with
      | Some _ =>
          (Raised (PyError "[Errno 17] No usable temporary file name found"), s, [])
      | None => (Returned name, with_fs (<[name := []]> (fs s)) s, [TempCreated name])
      end
  end.

(** [tmp_file.write(data)] on the buffered file object.  Data that fits the
    buffer is only copied into it, which cannot fail; it reaches the disk when
    the file is closed, which is the next thing the handler does, and the
    model shows it in the file at once.  Larger data is written through, and
    when that raises the file keeps the bytes that had landed. *)
Definition file_write (name : string) (data : list byte) : M unit := fun s =>
  if (length data <=? buffer_size env)%nat
  then (Returned tt, with_fs (<[name := data]> (fs s)) s, [FileWritten name data])
  else
    match write_error env name data (fs s) with
    | Some e =>
        (Raised e,
         with_fs (<[name := take (bytes_landed env name data (fs s)) data]> (fs s)) s,
         [WriteFailed name])
    | None => (Returned tt, with_fs (<[name := data]> (fs s)) s, [FileWritten name data])
    end.

(** Leaving the [with] block closes the file, which flushes the buffer; when
    that raises, the file keeps the bytes that had landed. *)
Definition file_close (name : string) : M unit := fun s =>
  match close_error env name (fs s) with
  | Some e =>
      match fs s !! name with
      | Some data =>
          (Raised e,
           with_fs (<[name := take (bytes_landed env name data (fs s)) data]> (fs s)) s,
           [])
      | None => (Raised e, s, [])
      end
  | None => (Returned tt, s, [])
  end.

(** [subprocess.run(argv, capture_output=True, text=True)]; ffmpeg's output
    path is the last argument. *)
Definition subprocess_run (argv : list string) : M CompletedProcess := fun s =>
  match ffmpeg env argv (fs s) with
  | inl e => (Raised e, s, [ConverterRun argv])
  | inr (cp, None) => (Returned cp, s, [ConverterRun argv])
  | inr (cp, Some data) =>
      match last argv with
      | Some out =>
          (Returned cp, with_fs (<[out := data]> (fs s)) s,
           [ConverterRun argv; ConverterOutput out])
      | None => (Returned cp, s, [ConverterRun argv])
      end
  end.

(** [model.transcribe(path, language=language, fp16=fp16)] *)
Definition model_transcribe (path : string) (language : option string) (fp16 : bool)
  : M WhisperResult := fun s =>
  match whisper_transcribe env path language fp16 (fs s) with
  | inl e => (Raised e, s, [RecognizerRun path language fp16])
  | inr res => (Returned res, s, [RecognizerRun path language fp16])
  end.

(** [os.path.exists(path)] *)
Definition os_path_exists (path : string) : M bool := fun s =>
  (Returned (bool_decide (is_Some (fs s !! path))), s, []).

(** [os.remove(path)] *)
Definition os_remove (path : string) : M unit := fun s =>
  match fs s !! path with
  | None =>
      (Raised (PyError ("[Errno 2] No such file or directory: '" +:+ path +:+ "'")),
       s, [RemoveFailed path])
  | Some _ =>
      match remove_error env path (fs s) with
      | Some e => (Raised e, s, [RemoveFailed path])
      | None => (Returned tt, with_fs (delete path (fs s)) s, [Removed path])
      end
  end.

(** an [Optional[str]] inside an f-string *)
Definition fmt (o : option string) : string := default "None" o.

(** [len(contents) / (1024 * 1024)]: true division by a power of two, which
    floating point computes exactly for every length below 2^53. *)
Definition file_size (contents : list byte) : Q :=
  (inject_Z (Z.of_nat (length contents)) / inject_Z (1024 * 1024))%Q.

(** [text[:150] + "..." if len(text) > 150 else text] *)
Definition make_tldr (text : string) : string :=
  if 150 <? Z.of_nat (String.length text)
  then PyStr.slice_to 150 text +:+ "..."
  else text.

(** The body of the [try] block, lines 82 to 127. *)
Definition try_block (contents : list byte) (language : option string)
  : M TranscriptionResponse.t :=
  tmp_file ← NamedTemporaryFile ".ogg";
  try_finally
    (file_write tmp_file contents;;
     set_tmp_input_path (Some tmp_file))
    (file_close tmp_file);;
  s ← get_state;
  match tmp_input_path s with
  | None => raise (PyError "'NoneType' object has no attribute 'replace'")
  | Some input =>
      let wav := PyStr.replace input ".ogg" ".wav" in
      set_wav_path (Some wav);;
      result ← subprocess_run
        ["ffmpeg"; "-i"; input; "-ar"; "16000"; "-ac"; "1"; "-f"; "wav"; wav];
      if negb (returncode result =? 0)
      then
        logger_error ("FFmpeg error: " +:+ stderr result);;
        raise (HTTPException 500 "Audio conversion failed")
      else
        logger_info "Starting transcription...";;
        result ← model_transcribe wav language false;
        match r_text result with
        | None => raise (PyError "'text'")
        | Some raw =>
            let text := PyStr.strip raw in
            let detected_language := default "unknown" (r_language result) in
            let tldr := make_tldr text in
            let duration := r_duration result in
            logger_info ("Transcription complete. Language: " +:+ detected_language);;
            mret {| TranscriptionResponse.transcript := text;
                    TranscriptionResponse.language := detected_language;
                    TranscriptionResponse.tldr := tldr;
                    TranscriptionResponse.duration := duration;
                    TranscriptionResponse.status := "success" |}
        end
  end.

(** The [except Exception as e] clause, lines 129 to 131. *)
Definition except_clause (e : Exn) : M TranscriptionResponse.t :=
  logger_error ("Transcription error: " +:+ str env e);;
  raise (HTTPException 500 (str env e)).

(** The body of the cleanup loop, lines 136 to 140: [if path and
    os.path.exists(path)] guards a removal whose exceptions are dropped. *)
Definition remove_quietly (path : option string) : M unit :=
  match path with
  | None => mret tt
  | Some p =>
      if String.eqb p "" then mret tt
      else
        there ← os_path_exists p;
        if there : bool
        then try_except (os_remove p) (fun _ => mret tt)
        else mret tt
  end.

(** The [finally] block, lines 133 to 140. *)
Definition finally_block : M unit :=
  s ← get_state;
  for_each [tmp_input_path s; wav_path s] remove_quietly.

(** Lines 70 to 140 of the handler, for a request with the declared name
    and content type whose [await file.read()] ends as [body]: the bytes it
    returns, or the exception it raises.  The read comes before the [try]
    statement, so an exception it raises leaves the handler as it is. *)
Definition transcribe_body (declared_name declared_type : option string)
    (body : Exn + list byte) (language : option string)
  : M TranscriptionResponse.t :=
  logger_info ("Received file: " +:+ fmt declared_name
               +:+ ", type: " +:+ fmt declared_type);;
  contents ← match body with
             | inl e => raise e
             | inr data => mret data
             end;
  if Qlt_le_dec 25 (file_size contents)
  then raise (HTTPException 413 "File too large. Max 25MB.")
  else
    set_wav_path None;;
    set_tmp_input_path None;;
    try_finally
      (try_except (try_block contents language) except_clause)
      finally_block.

(** [POST /transcribe] on an upload whose [await file.read()] returns the
    bytes [read file]. *)
Definition transcribe_audio (file : UploadFile) (language : option string)
  : M TranscriptionResponse.t :=
  transcribe_body (filename file) (content_type file) (inr (read file)) language.

(** [@app.exception_handler(Exception)] *)
Definition general_exception_handler (exc : Exn) : M JSONResponse :=
  logger_error ("Unhandled exception: " +:+ str env exc);;
  mret {| status_code := 500; content := Detail "Internal server error" |}.

(** How the framework turns the outcome of an endpoint into a reply: a
    returned model is a 200, an [HTTPException] is answered with its own
    status and detail, any other exception goes to the handler registered
    for [Exception]. *)
Definition respond {A} (wrap : A -> Body) (endpoint : M A) : M JSONResponse := fun s =>
  match endpoint s with
  | (Returned a, s', evs) => (Returned {| status_code := 200; content := wrap a |}, s', evs)
  | (Raised (HTTPException c d), s', evs) =>
      (Returned {| status_code := c; content := Detail d |}, s', evs)
  | (Raised e, s', evs) =>
      match general_exception_handler e s' with
      | (r, s'', evs') => (r, s'', evs ++ evs')
      end
  end.

(** *** Module start-up and the health endpoints *)

(** [os.getenv(key, default)] *)
Definition os_getenv (environ : gmap string string) (key dflt : string) : string :=
  default dflt (environ !! key).

(** Reading a global name: a [NameError] when it is not bound. *)
Definition load_global (globals : gmap string string) (name : string) : M string :=
  match globals !! name with
  | Some v => mret v
  | None => raise (PyError ("name '" +:+ name +:+ "' is not defined"))
  end.

(** The string-valued globals bound by line 32. *)
Definition module_globals (environ : gmap string string) : gmap string string :=
  {[ "MODEL_SIZE" := os_getenv environ "tiny" "base" ]}.

(** Lines 32 and 33: bind [MODEL_SIZE], then log the model name. *)
Definition startup (environ : gmap string string) : M (gmap string string) :=
  let globals := module_globals environ in
  tiny ← load_global globals "tiny";
  logger_info ("Loading Whisper model: " +:+ tiny);;
  mret globals.

(** [GET /] *)
Definition root (globals : gmap string string) : M HealthResponse.t :=
  tiny ← load_global globals "tiny";
  mret {| HealthResponse.status := "healthy";
          HealthResponse.model := tiny;
          HealthResponse.version := "1.0.0" |}.

(** [GET /health] *)
Definition health (globals : gmap string string) : M HealthResponse.t :=
  tiny ← load_global globals "tiny";
  mret {| HealthResponse.status := "healthy";
          HealthResponse.model := tiny;
          HealthResponse.version := "1.0.0" |}.

End Handler.

(** The paths of the file system entries a run brought into being: the
    temporary upload copy and the converter's output. *)
Fixpoint created (evs : list Event) : list string :=
  match evs with
  | [] => []
  | TempCreated p :: evs' => p :: created evs'
  | ConverterOutput p :: evs' => p :: created evs'
  | _ :: evs' => created evs'
  end.

(** The state in which the [try] statement starts: both locals are [None]. *)
Definition enter_try (s : State) : State :=
  {| fs := fs s; tmp_input_path := None; wav_path := None |}.

(** The argument vector handed to ffmpeg. *)
Definition ffmpeg_argv (input wav : string) : list string :=
  ["ffmpeg"; "-i"; input; "-ar"; "16000"; "-ac"; "1"; "-f"; "wav"; wav].

(** The name of the upload copy for a stem, and the output path the handler
    derives from it with [replace]. *)
Definition ogg_of (stem : string) : string := stem +:+ ".ogg".
Definition wav_of (stem : string) : string :=
  PyStr.replace (stem +:+ ".ogg") ".ogg" ".wav".

(** The files on disk once the upload has been saved under [stem ++ ".ogg"]. *)
Definition saved (stem : string) (contents : list byte)
    (files : gmap string (list byte)) : gmap string (list byte) :=
  <[stem +:+ ".ogg" := contents]> (<[stem +:+ ".ogg" := []]> files).

(** The line logged when a request arrives. *)
Definition received_line (file : UploadFile) : string :=
  "Received file: " +:+ fmt (filename file) +:+ ", type: " +:+ fmt (content_type file).

(** ** Scripted environments for concrete runs *)

(** An environment that follows a script: what ffmpeg and Whisper answer,
    whether the disk is nearly full when the upload is saved, and which
    deletions fail.  A nearly full disk has room for 1024 more bytes: a
    write of more than the 4096 bytes of the buffer raises once 1024 bytes
    have landed, and closing a file whose buffered bytes number more than
    1024 raises when it flushes them.  The temporary name is the one
    [tempfile] would build in [/tmp]. *)
Definition scripted_env
    (conv : Exn + (CompletedProcess * option (list byte)))
    (rec : Exn + WhisperResult)
    (write_fails : bool)
    (remove_fails : string -> bool) : Env :=
  {| tempfile_stem := fun _ => inr "/tmp/tmpk3x9_q2a";
     buffer_size := 4096;
     write_error := fun _ data _ =>
       if write_fails && (1024 <? length data)%nat
       then Some (PyError "[Errno 28] No space left on device")
       else None;
     close_error := fun name files =>
       if write_fails && (1024 <? length (default [] (files !! name)))%nat
       then Some (PyError "[Errno 28] No space left on device")
       else None;
     bytes_landed := fun _ _ _ => 1024%nat;
     ffmpeg := fun _ _ => conv;
     whisper_transcribe := fun _ _ _ _ => rec;
     remove_error := fun p _ =>
       if remove_fails p
       then Some (PyError ("[Errno 13] Permission denied: '" +:+ p +:+ "'"))
       else None;
     str_HTTPException := starlette_str |}.

Definition idle : State := {| fs := ∅; tmp_input_path := None; wav_path := None |}.

(** Four bytes of an Ogg stream, declared as such. *)
Definition ogg_upload : UploadFile :=
  {| filename := Some "note.ogg"; content_type := Some "audio/ogg";
     read := [x4f; x67; x67; x53] |}.

(** The same bytes under another name and content type. *)
Definition renamed_upload : UploadFile :=
  {| filename := Some "memo.bin"; content_type := None;
     read := [x4f; x67; x67; x53] |}.

Definition wav_bytes : list byte := [x52; x49; x46; x46].

Definition conversion_ok : Exn + (CompletedProcess * option (list byte)) :=
  inr ({| returncode := 0; stderr := "" |}, Some wav_bytes).

(** ffmpeg rejects the input: exit status 1, a diagnostic, no output file. *)
Definition conversion_rejected : Exn + (CompletedProcess * option (list byte)) :=
  inr ({| returncode := 1;
          stderr := "Invalid data found when processing input" |}, None).

Definition heard (raw : string) : Exn + WhisperResult :=
  inr {| r_text := Some raw; r_language := Some "en"; r_duration := None |}.

Definition never_fails (p : string) : bool := false.

(** [n] copies of the letter a *)
Fixpoint letters (n : nat) : string :=
  match n with
  | O => EmptyString
  | S k => String "a" (letters k)
  end.

(** Whisper hears a short sentence with white space around it. *)
Definition quiet_env : Env :=
  scripted_env conversion_ok (heard "  hi there ") false never_fails.

Definition quiet_reply : TranscriptionResponse.t :=
  {| TranscriptionResponse.transcript := "hi there";
     TranscriptionResponse.language := "en";
     TranscriptionResponse.tldr := "hi there";
     TranscriptionResponse.duration := None;
     TranscriptionResponse.status := "success" |}.

(** Whisper hears 151 characters. *)
Definition long_env : Env :=
  scripted_env conversion_ok (heard (letters 151)) false never_fails.

Definition long_reply : TranscriptionResponse.t :=
  {| TranscriptionResponse.transcript := letters 151;
     TranscriptionResponse.language := "en";
     TranscriptionResponse.tldr := letters 150 +:+ "...";
     TranscriptionResponse.duration := None;
     TranscriptionResponse.status := "success" |}.

(** Whisper hears a short sentence that trails off. *)
Definition trailing_env : Env :=
  scripted_env conversion_ok (heard "Well...") false never_fails.

Definition trailing_reply : TranscriptionResponse.t :=
  {| TranscriptionResponse.transcript := "Well...";
     TranscriptionResponse.language := "en";
     TranscriptionResponse.tldr := "Well...";
     TranscriptionResponse.duration := None;
     TranscriptionResponse.status := "success" |}.

(** ffmpeg rejects the upload. *)
Definition rejecting_env : Env :=
  scripted_env conversion_rejected (heard "") false never_fails.

(** The upload copy cannot be deleted. *)
Definition stubborn_ogg (p : string) : bool := String.eqb p "/tmp/tmpk3x9_q2a.ogg".

Definition stuck_env : Env :=
  scripted_env conversion_ok (heard "hi") false stubborn_ogg.

Definition short_reply : TranscriptionResponse.t :=
  {| TranscriptionResponse.transcript := "hi";
     TranscriptionResponse.language := "en";
     TranscriptionResponse.tldr := "hi";
     TranscriptionResponse.duration := None;
     TranscriptionResponse.status := "success" |}.

(** The disk is nearly full when the upload is written. *)
Definition full_disk_env : Env :=
  scripted_env conversion_ok (heard "hi") true never_fails.

(** An upload of 6000 bytes, more than the buffer holds. *)
Definition six_thousand_bytes : UploadFile :=
  {| filename := Some "talk.ogg"; content_type := Some "audio/ogg";
     read := repeat x00 (Z.to_nat 6000) |}.

(** An upload of 2000 bytes, which the buffer holds. *)
Definition two_thousand_bytes : UploadFile :=
  {| filename := Some "memo.ogg"; content_type := Some "audio/ogg";
     read := repeat x00 2000 |}.

(** An upload of 30,000,000 bytes. *)
Definition thirty_megabytes : UploadFile :=
  {| filename := Some "talk.ogg"; content_type := Some "audio/ogg";
     read := repeat x00 (Z.to_nat 30000000) |}.

(** ** What a run asked of the converter and the recognizer *)

(** The argument vectors of the converter runs among the events, in order. *)
Fixpoint converter_calls (evs : list Event) : list (list string) :=
  match evs with
  | [] => []
  | ConverterRun argv :: evs' => argv :: converter_calls evs'
  | _ :: evs' => converter_calls evs'
  end.

(** The recognizer calls among the events, in order: path, language hint and
    fp16 flag. *)
Fixpoint recognizer_calls (evs : list Event) : list (string * option string * bool) :=
  match evs with
  | [] => []
  | RecognizerRun p l h :: evs' => (p, l, h) :: recognizer_calls evs'
  | _ :: evs' => recognizer_calls evs'
  end.

(** No character of [s] is a dot. *)
Fixpoint dot_free (s : string) : bool :=
  match s with
  | EmptyString => true
  | String c s' => negb (Ascii.eqb c ".") && dot_free s'
  end.

(** Whisper raises. *)
Definition deaf_env : Env :=
  scripted_env conversion_ok (inl (PyError "Failed to load audio")) false never_fails.

(** Whisper returns a dictionary without the key "text". *)
Definition textless_env : Env :=
  scripted_env conversion_ok
    (inr {| r_text := None; r_language := Some "en"; r_duration := None |})
    false never_fails.

(** Whisper hears silence: three blanks, no language. *)
Definition blank_env : Env :=
  scripted_env conversion_ok
    (inr {| r_text := Some "   "; r_language := None; r_duration := Some (3 # 1) |})
    false never_fails.

(** A disk that already holds an unrelated file and a file at the path the
    handler will derive for the converter's output. *)
Definition crowded : State :=
  {| fs := <["/srv/keep.txt" := [x6f; x6b]]> (<["/tmp/tmpk3x9_q2a.wav" := [x00]]> ∅);
     tmp_input_path := None; wav_path := None |}.

(** The files on disk after the converter has run on a saved upload: its
    output, if it wrote any, sits at the derived path. *)
Definition converted (stem : string) (contents : list byte) (out : option (list byte))
    (files : gmap string (list byte)) : gmap string (list byte) :=
  match out with
  | Some d => <[wav_of stem := d]> (saved stem contents files)
  | None => saved stem contents files
  end.

(** The bytes of the upload that had reached the copy when a write to it
    raised. *)
Definition landed (env : Env) (stem : string) (contents : list byte)
    (files : gmap string (list byte)) : list byte :=
  take (bytes_landed env (stem +:+ ".ogg") contents (<[stem +:+ ".ogg" := []]> files))
       contents.

(** A disk that holds one unrelated file. *)
Definition tidy : State :=
  {| fs := <["/srv/keep.txt" := [x6f; x6b]]> ∅;
     tmp_input_path := None; wav_path := None |}.

(** * Facts about the string operations *)

Section StringFacts.

#[local] Arguments String.append !_ _ / : simpl nomatch.

Lemma length_app (s t : string) :
  String.length (s +:+ t) = (String.length s + String.length t)%nat.
Proof. induction s as [|c s IH]; simpl; [reflexivity | now rewrite IH]. Qed.

Lemma slice_to_length (n : nat) (s : string) :
  String.length (PyStr.slice_to n s) = Nat.min n (String.length s).
Proof.
  revert s; induction n as [|n IH]; intros [|c s]; simpl; try reflexivity.
  now rewrite IH.
Qed.

Lemma startswith_app (p u : string) : PyStr.startswith (p +:+ u) p = true.
Proof.
  induction p as [|c p IH]; simpl; [reflexivity|].
  now rewrite Ascii.eqb_refl.
Qed.

Lemma startswith_inv (s p : string) :
  PyStr.startswith s p = true -> exists u, s = p +:+ u.
Proof.
  revert s; induction p as [|a p IH]; intros s H; simpl in *.
  - now exists s.
  - destruct s as [|b s]; [discriminate|].
    destruct (Ascii.eqb a b) eqn:E; [|discriminate].
    apply Ascii.eqb_eq in E; subst b.
    destruct (IH _ H) as [u ->]. now exists u.
Qed.

Lemma slice_to_prefix (n : nat) (s : string) :
  PyStr.startswith s (PyStr.slice_to n s) = true.
Proof.
  revert s; induction n as [|n IH]; intros [|c s]; simpl; try reflexivity.
  now rewrite Ascii.eqb_refl.
Qed.

Lemma slice_to_all (n : nat) (s : string) :
  (String.length s <= n)%nat -> PyStr.slice_to n s = s.
Proof.
  revert s; induction n as [|n IH]; intros [|c s] H; simpl in *;
    try reflexivity; try lia.
  f_equal; apply IH; lia.
Qed.

Lemma slice_from_app (s p : string) :
  PyStr.slice_from (String.length s) (s +:+ p) = p.
Proof. induction s as [|c s IH]; simpl; [now destruct p | exact IH]. Qed.

Lemma endswith_app (s p : string) : PyStr.endswith (s +:+ p) p = true.
Proof.
  unfold PyStr.endswith. rewrite length_app.
  replace (String.length s + String.length p - String.length p)%nat
    with (String.length s) by lia.
  rewrite slice_from_app, String.eqb_refl, andb_true_r.
  apply Nat.leb_le; lia.
Qed.

(** [lstrip] drops a run of white space at the front and stops at the first
    character that is not white space. *)
Lemma lstrip_spec (s : string) :
  exists l, s = l +:+ PyStr.lstrip s /\ PyStr.all_space l = true /\
            forall c, PyStr.first_char (PyStr.lstrip s) = Some c -> PyStr.isspace c = false.
Proof.
  induction s as [|c s (l & Hs & Hl & Hc)]; simpl.
  - exists EmptyString; repeat split; discriminate.
  - destruct (PyStr.isspace c) eqn:E.
    + exists (String c l); simpl; rewrite E, Hl; repeat split; [congruence | exact Hc].
    + exists EmptyString; repeat split. simpl; intros c' [= <-]; exact E.
Qed.

Lemma rstrip_spec (s : string) :
  exists r, s = PyStr.rstrip s +:+ r /\ PyStr.all_space r = true /\
            (forall c, PyStr.last_char (PyStr.rstrip s) = Some c -> PyStr.isspace c = false) /\
            (forall c, PyStr.first_char (PyStr.rstrip s) = Some c -> PyStr.first_char s = Some c).
Proof.
  induction s as [|c s (r & Hs & Hr & Hc & _)]; simpl.
  - exists EmptyString; repeat split; discriminate.
  - destruct (PyStr.rstrip s) as [|d t] eqn:E.
    + destruct (PyStr.isspace c) eqn:Ec.
      * exists (String c r); simpl in *; rewrite Ec, Hr; repeat split;
          [congruence | discriminate | discriminate].
      * exists r; simpl in *; repeat split; [congruence | exact Hr | | tauto].
        intros c' [= <-]; exact Ec.
    + exists r; simpl in *; repeat split; [congruence | exact Hr | exact Hc | tauto].
Qed.

(** [strip] removes white space at both ends and nothing else. *)
Lemma strip_spec (s : string) :
  (exists l r, s = l +:+ PyStr.strip s +:+ r /\
               PyStr.all_space l = true /\ PyStr.all_space r = true) /\
  (forall c, PyStr.first_char (PyStr.strip s) = Some c -> PyStr.isspace c = false) /\
  (forall c, PyStr.last_char (PyStr.strip s) = Some c -> PyStr.isspace c = false).
Proof.
  unfold PyStr.strip.
  destruct (lstrip_spec s) as (l & Hs & Hl & Hf).
  destruct (rstrip_spec (PyStr.lstrip s)) as (r & Hm & Hr & Hlast & Hfirst).
  repeat split.
  - exists l, r; repeat split; [congruence | exact Hl | exact Hr].
  - intros c Hc; apply Hf, Hfirst, Hc.
  - exact Hlast.
Qed.

Lemma ogg_name_nonempty (stem : string) : stem +:+ ".ogg" <> EmptyString.
Proof. destruct stem; simpl; discriminate. Qed.

Lemma replace_nonempty (s old new : string) :
  s <> EmptyString -> new <> EmptyString -> PyStr.replace s old new <> EmptyString.
Proof.
  destruct s as [|c s]; [congruence|]. destruct new as [|a n]; [congruence|].
  intros _ _. unfold PyStr.replace. simpl.
  destruct (PyStr.startswith (String c s) old); simpl; discriminate.
Qed.

Lemma wav_name_nonempty (input : string) :
  input <> EmptyString -> PyStr.replace input ".ogg" ".wav" <> EmptyString.
Proof. intros H. apply replace_nonempty; [exact H | discriminate]. Qed.

End StringFacts.

(** * Facts about the handler *)

Ltac in_list :=
  solve [repeat first [apply list_elem_of_here | apply list_elem_of_further]].

Ltac decompose_in H :=
  repeat (apply elem_of_cons in H as [H|H]; [try discriminate H; try subst|]);
  try (apply elem_of_nil in H; contradiction).

Ltac notin_list :=
  let H := fresh in intros H; decompose_in H.

Section HandlerFacts.

Context (env : Env).

Ltac run :=
  unfold mbind, M_bind, mret, M_ret, raise, emit, get_state,
    set_tmp_input_path, set_wav_path, logger_info, logger_error,
    try_except, try_finally, result_of, state_of, events_of, with_fs in *;
  simpl in *.

Lemma created_app (l1 l2 : list Event) : created (l1 ++ l2) = created l1 ++ created l2.
Proof.
  induction l1 as [|ev l1 IH]; [reflexivity|].
  destruct ev; simpl; rewrite ?IH; reflexivity.
Qed.

(** The size check compares the byte count with 25 * 2^20. *)
Lemma too_large_iff (contents : list byte) :
  (25 < file_size contents)%Q <-> 25 * 2 ^ 20 < Z.of_nat (length contents).
Proof.
  unfold file_size, Qlt, Qdiv, Qmult, Qinv, inject_Z. simpl. lia.
Qed.

(** One round of the cleanup loop returns normally, keeps the locals, only
    deletes, and leaves its path absent unless the deletion failed. *)
Lemma remove_quietly_spec (path : option string) (s : State) :
  exists s' evs,
    remove_quietly env path s = (Returned tt, s', evs) /\
    tmp_input_path s' = tmp_input_path s /\ wav_path s' = wav_path s /\
    (forall ev, ev ∈ evs -> exists p, ev = Removed p \/ ev = RemoveFailed p) /\
    (forall q, fs s !! q = None -> fs s' !! q = None) /\
    (forall p, path = Some p -> p <> EmptyString ->
               fs s' !! p = None \/ RemoveFailed p ∈ evs).
Proof.
  unfold remove_quietly.
  destruct path as [p|]; cycle 1.
  { run; eexists _, _; split_and!; try done. intros ev Hev; decompose_in Hev. }
  destruct (String.eqb_spec p "") as [->|Hp].
  { run; eexists _, _; split_and!; try done.
    - intros ev Hev; decompose_in Hev.
    - intros p [= <-] Hp; now destruct Hp. }
  unfold os_path_exists, os_remove; run.
  destruct (fs s !! p) as [d|] eqn:Hd; simpl.
  - rewrite Hd. destruct (remove_error env p (fs s)) as [e|]; simpl.
    + eexists _, _; split_and!; try done.
      * intros ev Hev; decompose_in Hev; eauto.
      * intros q [= <-] _. right. in_list.
    + eexists _, _; split; [reflexivity|]; simpl; split_and!; try done.
      * intros ev Hev; decompose_in Hev; eauto.
      * intros q Hq. destruct (decide (p = q)) as [->|Hne];
          [apply lookup_delete_eq | rewrite lookup_delete_ne; auto].
      * intros q [= <-] _. left. apply lookup_delete_eq.
  - eexists _, _; split_and!; try done.
    + intros ev Hev; decompose_in Hev.
    + intros q [= <-] _. now left.
Qed.

(** The [finally] block never raises. *)
Lemma finally_block_spec (s : State) :
  exists s' evs,
    finally_block env s = (Returned tt, s', evs) /\
    (forall ev, ev ∈ evs -> exists p, ev = Removed p \/ ev = RemoveFailed p) /\
    (forall q, fs s !! q = None -> fs s' !! q = None) /\
    (forall p, p <> EmptyString ->
               tmp_input_path s = Some p \/ wav_path s = Some p ->
               fs s' !! p = None \/ RemoveFailed p ∈ evs).
Proof.
  unfold finally_block, for_each; run.
  destruct (remove_quietly_spec (tmp_input_path s) s)
    as (s1 & evs1 & E1 & Ht1 & Hw1 & Hc1 & Hm1 & Hp1).
  destruct (remove_quietly_spec (wav_path s) s1)
    as (s2 & evs2 & E2 & Ht2 & Hw2 & Hc2 & Hm2 & Hp2).
  rewrite E1, E2. simpl. eexists _, _; split; [reflexivity|].
  rewrite app_nil_r. split_and!; auto.
  - intros ev [Hev|Hev]%elem_of_app; auto.
  - intros p Hne [Hp|Hp].
    + destruct (Hp1 p Hp Hne) as [H|H]; [left; auto | right].
      apply elem_of_app; now left.
    + destruct (Hp2 p Hp Hne) as [H|H]; [left; auto | right].
      apply elem_of_app; now right.
Qed.

(** Removal events create nothing. *)
Lemma removals_create_nothing (evs : list Event) :
  (forall ev, ev ∈ evs -> exists p, ev = Removed p \/ ev = RemoveFailed p) ->
  created evs = [].
Proof.
  induction evs as [|ev evs IH]; intros H; [reflexivity|].
  destruct (H ev) as (p & [-> | ->]); [apply list_elem_of_here | |];
    simpl; apply IH; intros ev' Hev'; apply H, list_elem_of_further, Hev'.
Qed.


Ltac exec_try_block :=
  unfold try_block, NamedTemporaryFile, file_write, file_close, subprocess_run,
    model_transcribe, except_clause; run.

(** What the [try]/[except] pair leaves behind on any path: the entries it
    created, which of them the locals remember, and how it can end. *)
Lemma protected_footprint (contents : list byte) (language : option string)
    (s s1 : State) (r : Result TranscriptionResponse.t) (evs : list Event) :
  try_except (try_block env contents language) (except_clause env) s = (r, s1, evs) ->
  tmp_input_path s = None -> wav_path s = None ->
  (forall p, p ∈ created evs -> WriteFailed p ∉ evs ->
             p <> EmptyString /\ (tmp_input_path s1 = Some p \/ wav_path s1 = Some p)) /\
  (created evs = [] \/
   exists input, TempCreated input ∈ evs /\
     (created evs = [input] /\ (forall q, ConverterOutput q ∉ evs) \/
      created evs = [input; PyStr.replace input ".ogg" ".wav"] /\
      ConverterOutput (PyStr.replace input ".ogg" ".wav") ∈ evs)) /\
  ((exists a, r = Returned a) \/ exists e, r = Raised (HTTPException 500 (str env e))) /\
  (forall stem, tempfile_stem env (fs s) = inr stem ->
                fs s !! (stem +:+ ".ogg") = None ->
                exists rest, created evs = (stem +:+ ".ogg") :: rest).
Proof.
  exec_try_block. intros H Ht Hw.
  repeat (case_match; simpl in *; simplify_eq).
  all: simpl; (split; [|split; [|split]]).
  all: try (intros stem ? ?; simplify_eq; eexists; reflexivity).
  all: try (intros p Hp Hnw; decompose_in Hp;
            try (exfalso; apply Hnw; in_list);
            split; auto using ogg_name_nonempty, wav_name_nonempty).
  all: try (left; eexists; reflexivity).
  all: try (right; eexists; reflexivity).
  all: try (left; reflexivity).
  all: try (right; exists (HTTPException 500 "Audio conversion failed"); reflexivity).
  all: try (right; eexists (PyError _); reflexivity).
  all: try (right; eexists; split; [in_list|];
            first [left; split; [reflexivity|intro; notin_list]
                  | right; split; [reflexivity|in_list]]).
Qed.

(** A returned response pins down the whole run of the [try] block. *)
Lemma try_block_returned (contents : list byte) (language : option string)
    (s s1 : State) (r : TranscriptionResponse.t) (evs : list Event) :
  try_block env contents language s = (Returned r, s1, evs) ->
  exists stem cp out res raw,
    let input := stem +:+ ".ogg" in
    let wav := PyStr.replace input ".ogg" ".wav" in
    let fs1 := <[input := contents]> (<[input := []]> (fs s)) in
    let fs2 := match out with Some d => <[wav := d]> fs1 | None => fs1 end in
    tempfile_stem env (fs s) = inr stem /\
    ffmpeg env (ffmpeg_argv input wav) fs1 = inr (cp, out) /\
    returncode cp = 0 /\
    whisper_transcribe env wav language false fs2 = inr res /\
    r_text res = Some raw /\
    r = {| TranscriptionResponse.transcript := PyStr.strip raw;
           TranscriptionResponse.language := default "unknown" (r_language res);
           TranscriptionResponse.tldr := make_tldr (PyStr.strip raw);
           TranscriptionResponse.duration := r_duration res;
           TranscriptionResponse.status := "success" |} /\
    evs = TempCreated input :: FileWritten input contents
          :: ConverterRun (ffmpeg_argv input wav)
          :: match out with Some _ => [ConverterOutput wav] | None => [] end
          ++ [LogInfo "Starting transcription...";
              RecognizerRun wav language false;
              LogInfo ("Transcription complete. Language: "
                       +:+ default "unknown" (r_language res))].
Proof.
  exec_try_block. intros H.
  repeat (case_match; simpl in *; simplify_eq).
  all: match goal with
       | Hrc : negb (returncode _ =? 0) = false |- _ =>
           apply negb_false_iff, Z.eqb_eq in Hrc
       end.
  all: first
         [ solve [eexists _, _, (Some _), _, _; simpl; unfold ffmpeg_argv;
                  repeat split; eauto]
         | solve [eexists _, _, None, _, _; simpl; unfold ffmpeg_argv;
                  repeat split; eauto] ].
Qed.

(** An upload above the limit is refused at once. *)
Lemma transcribe_audio_too_large (file : UploadFile) (language : option string)
    (s : State) :
  25 * 2 ^ 20 < Z.of_nat (length (read file)) ->
  transcribe_audio env file language s =
  (Raised (HTTPException 413 "File too large. Max 25MB."), s,
   [LogInfo (received_line file)]).
Proof.
  intros H. unfold transcribe_audio, transcribe_body, mbind, M_bind, mret, M_ret,
    logger_info, emit. cbn [app].
  destruct (Qlt_le_dec 25 (file_size (read file))) as [Hq|Hq].
  - reflexivity.
  - apply too_large_iff in H. exfalso. apply (Qlt_not_le _ _ H Hq).
Qed.

(** Any other upload runs the [try] statement: the protected part, then the
    [finally] block, whose events follow and which never raises. *)
Lemma transcribe_audio_accepted (file : UploadFile) (language : option string)
    (s : State) :
  Z.of_nat (length (read file)) <= 25 * 2 ^ 20 ->
  exists r s1 evs1 s2 evs2,
    try_except (try_block env (read file) language) (except_clause env) (enter_try s)
      = (r, s1, evs1) /\
    finally_block env s1 = (Returned tt, s2, evs2) /\
    (forall ev, ev ∈ evs2 -> exists p, ev = Removed p \/ ev = RemoveFailed p) /\
    (forall p, p <> EmptyString ->
               tmp_input_path s1 = Some p \/ wav_path s1 = Some p ->
               fs s2 !! p = None \/ RemoveFailed p ∈ evs2) /\
    transcribe_audio env file language s
      = (r, s2, LogInfo (received_line file) :: evs1 ++ evs2).
Proof.
  intros H. unfold transcribe_audio, transcribe_body.
  unfold mbind at 1 2, M_bind at 1 2, mret, M_ret, logger_info, emit. cbn [app].
  destruct (Qlt_le_dec 25 (file_size (read file))) as [Hq|Hq].
  { apply too_large_iff in Hq. lia. }
  destruct (try_except (try_block env (read file) language) (except_clause env)
              (enter_try s)) as [[r s1] evs1] eqn:E.
  destruct (finally_block_spec s1) as (s2 & evs2 & Ef & Hev & _ & Hgone).
  exists r, s1, evs1, s2, evs2. repeat split; auto.
  unfold mbind, M_bind, logger_info, emit, set_wav_path, set_tmp_input_path.
  unfold try_finally. cbn [fs tmp_input_path wav_path].
  change {| fs := fs s; tmp_input_path := None; wav_path := None |} with (enter_try s).
  rewrite E, Ef. reflexivity.
Qed.

(** When the handler returns a response, the [try] block returned it. *)
Lemma transcribe_audio_returned (file : UploadFile) (language : option string)
    (s : State) (r : TranscriptionResponse.t) :
  result_of (transcribe_audio env file language s) = Returned r ->
  Z.of_nat (length (read file)) <= 25 * 2 ^ 20 /\
  exists s1 evs1 s2 evs2,
    try_block env (read file) language (enter_try s) = (Returned r, s1, evs1) /\
    (forall ev, ev ∈ evs2 -> exists p, ev = Removed p \/ ev = RemoveFailed p) /\
    transcribe_audio env file language s
      = (Returned r, s2, LogInfo (received_line file) :: evs1 ++ evs2).
Proof.
  intros H.
  destruct (Z.le_gt_cases (Z.of_nat (length (read file))) (25 * 2 ^ 20)) as [Hle|Hgt].
  - split; [exact Hle|].
    destruct (transcribe_audio_accepted file language s Hle)
      as (r0 & s1 & evs1 & s2 & evs2 & Ep & _ & Hev & _ & Eq).
    rewrite Eq in H. unfold result_of in H. simpl in H. subst r0.
    unfold try_except in Ep.
    destruct (try_block env (read file) language (enter_try s)) as [[[a|e] s'] evs'].
    + injection Ep as -> -> ->. exists s1, evs1, s2, evs2; auto.
    + unfold except_clause in Ep; run. discriminate Ep.
  - rewrite transcribe_audio_too_large in H by lia. discriminate H.
Qed.

(** The two branches of the summary. *)
Lemma make_tldr_short (text : string) :
  (String.length text <= 150)%nat -> make_tldr text = text.
Proof.
  intros H. unfold make_tldr.
  destruct (Z.ltb_spec 150 (Z.of_nat (String.length text))); [lia | reflexivity].
Qed.

Lemma make_tldr_long (text : string) :
  (150 < String.length text)%nat ->
  make_tldr text = PyStr.slice_to 150 text +:+ "...".
Proof.
  intros H. unfold make_tldr.
  destruct (Z.ltb_spec 150 (Z.of_nat (String.length text))); [reflexivity | lia].
Qed.

Lemma make_tldr_length (text : string) : (String.length (make_tldr text) <= 153)%nat.
Proof.
  destruct (Nat.le_gt_cases (String.length text) 150) as [H|H].
  - rewrite make_tldr_short by exact H. lia.
  - rewrite make_tldr_long by exact H.
    rewrite length_app, slice_to_length.
    change (String.length "...") with 3%nat. lia.
Qed.

(** C2: in every successful response the tldr is the transcript itself when
    the transcript has at most 150 characters, and otherwise the first 150
    characters of the transcript followed by the three characters "...";
    so the tldr never has more than 153 characters. *)
Theorem tldr_truncates_transcript (file : UploadFile) (language : option string)
    (s : State) (r : TranscriptionResponse.t) :
  result_of (transcribe_audio env file language s) = Returned r ->
  let t := TranscriptionResponse.transcript r in
  let d := TranscriptionResponse.tldr r in
  ((String.length t <= 150)%nat -> d = t) /\
  ((150 < String.length t)%nat ->
     d = PyStr.slice_to 150 t +:+ "..." /\
     String.length (PyStr.slice_to 150 t) = 150%nat /\
     PyStr.startswith t (PyStr.slice_to 150 t) = true) /\
  (String.length d <= 153)%nat.
Proof.
  intros H. apply transcribe_audio_returned in H as (_ & s1 & evs1 & _ & _ & Hb & _).
  apply try_block_returned in Hb as (stem & cp & out & res & raw & Hb).
  destruct Hb as (_ & _ & _ & _ & _ & -> & _).
  cbv zeta; cbn [TranscriptionResponse.transcript TranscriptionResponse.tldr
                 TranscriptionResponse.status].
  split_and!.
  - apply make_tldr_short.
  - intros Hlong. split_and!.
    + apply make_tldr_long, Hlong.
    + rewrite slice_to_length. lia.
    + apply slice_to_prefix.
  - apply make_tldr_length.
Qed.

(** C3, as amended: a successful response to an upload of at most 25 MiB has
    status "success"; when the transcript has at most 150 characters the tldr
    is the transcript, hence a prefix of it; when it is longer, the tldr is a
    150-character prefix of the transcript followed by "...", so it ends in
    "..."; in both cases the tldr has at most 153 characters. *)
Theorem tldr_extends_a_prefix (file : UploadFile) (language : option string)
    (s : State) (r : TranscriptionResponse.t) :
  Z.of_nat (length (read file)) <= 25 * 2 ^ 20 ->
  result_of (transcribe_audio env file language s) = Returned r ->
  let t := TranscriptionResponse.transcript r in
  let d := TranscriptionResponse.tldr r in
  TranscriptionResponse.status r = "success" /\
  ((String.length t <= 150)%nat -> d = t /\ PyStr.startswith t d = true) /\
  ((150 < String.length t)%nat ->
     exists head, d = head +:+ "..." /\ PyStr.startswith t head = true /\
                  String.length head = 150%nat /\ PyStr.endswith d "..." = true) /\
  (String.length d <= 153)%nat.
Proof.
  intros _ H. apply transcribe_audio_returned in H as (_ & s1 & evs1 & _ & _ & Hb & _).
  apply try_block_returned in Hb as (stem & cp & out & res & raw & Hb).
  destruct Hb as (_ & _ & _ & _ & _ & -> & _).
  cbv zeta; cbn [TranscriptionResponse.transcript TranscriptionResponse.tldr
                 TranscriptionResponse.status].
  split_and!.
  - reflexivity.
  - intros Hshort. rewrite make_tldr_short by exact Hshort. split; [reflexivity|].
    rewrite <- (slice_to_all (String.length (PyStr.strip raw)) (PyStr.strip raw)) at 2
      by lia.
    apply slice_to_prefix.
  - intros Hlong. exists (PyStr.slice_to 150 (PyStr.strip raw)).
    rewrite make_tldr_long by exact Hlong. split_and!.
    + reflexivity.
    + apply slice_to_prefix.
    + rewrite slice_to_length. lia.
    + apply endswith_app.
  - apply make_tldr_length.
Qed.

(** The events of an accepted request, seen through [created]. *)
Lemma created_of_request (line : string) (evs1 evs2 : list Event) :
  (forall ev, ev ∈ evs2 -> exists p, ev = Removed p \/ ev = RemoveFailed p) ->
  created (LogInfo line :: evs1 ++ evs2) = created evs1.
Proof.
  intros H. simpl. rewrite created_app, (removals_create_nothing evs2 H).
  apply app_nil_r.
Qed.

(** C1, as amended: for a request that gets past the size check, the cleanup
    step never raises and leaves the outcome of the request as the
    try/except statement produced it, on every exit path; and every temporary
    file the request created and recorded (the upload copy once its bytes
    were written, and the converter's output) is gone from disk when the
    request ends unless its deletion failed. *)
Theorem cleanup_is_best_effort (file : UploadFile) (language : option string)
    (s : State) :
  Z.of_nat (length (read file)) <= 25 * 2 ^ 20 ->
  let run := transcribe_audio env file language s in
  (forall s0, result_of (finally_block env s0) = Returned tt) /\
  result_of run
    = result_of (try_except (try_block env (read file) language) (except_clause env)
                   (enter_try s)) /\
  (forall p, p ∈ created (events_of run) -> WriteFailed p ∉ events_of run ->
             fs (state_of run) !! p = None \/ RemoveFailed p ∈ events_of run).
Proof.
  intros Hle.
  destruct (transcribe_audio_accepted file language s Hle)
    as (r & s1 & evs1 & s2 & evs2 & Ep & Ef & Hev & Hgone & Eq).
  cbv zeta. rewrite Eq, Ep. unfold result_of, state_of, events_of.
  cbn [fst snd]. split_and!.
  - intros s0. destruct (finally_block_spec s0) as (s' & evs & E & _).
    now rewrite E.
  - reflexivity.
  - rewrite created_of_request by exact Hev. intros p Hp Hnw.
    destruct (protected_footprint _ _ _ _ _ _ Ep eq_refl eq_refl) as (Hrec & _).
    destruct (Hrec p Hp) as (Hne & Hloc).
    { intros Hin. apply Hnw. apply list_elem_of_further, elem_of_app. now left. }
    destruct (Hgone p Hne Hloc) as [Hgo|Hfail]; [now left | right].
    apply list_elem_of_further, elem_of_app. now right.
Qed.

(** C7, as amended: a request refused by the size check creates no temporary
    file system entry; any other request creates at most two, whether or not
    conversion, recognition or shaping fail: the upload copy, which is
    created whenever a fresh temporary name is available, and after it the
    converter's output at the path derived from that name, exactly when the
    converter writes one. *)
Theorem temporary_entries_created (file : UploadFile) (language : option string)
    (s : State) :
  let evs := events_of (transcribe_audio env file language s) in
  (25 * 2 ^ 20 < Z.of_nat (length (read file)) -> created evs = []) /\
  (created evs = [] \/
   exists input, TempCreated input ∈ evs /\
     (created evs = [input] /\ (forall q, ConverterOutput q ∉ evs) \/
      created evs = [input; PyStr.replace input ".ogg" ".wav"] /\
      ConverterOutput (PyStr.replace input ".ogg" ".wav") ∈ evs)) /\
  (Z.of_nat (length (read file)) <= 25 * 2 ^ 20 ->
   forall stem, tempfile_stem env (fs s) = inr stem ->
                fs s !! (stem +:+ ".ogg") = None ->
                exists rest, created evs = (stem +:+ ".ogg") :: rest).
Proof.
  cbv zeta.
  destruct (Z.le_gt_cases (Z.of_nat (length (read file))) (25 * 2 ^ 20)) as [Hle|Hgt].
  - destruct (transcribe_audio_accepted file language s Hle)
      as (r & s1 & evs1 & s2 & evs2 & Ep & Ef & Hev & Hgone & Eq).
    rewrite Eq. unfold events_of. cbn [snd].
    rewrite created_of_request by exact Hev.
    destruct (protected_footprint _ _ _ _ _ _ Ep eq_refl eq_refl)
      as (_ & Hshape & _ & Hfirst).
    split_and!.
    + lia.
    + destruct Hshape as [Hnone | (input & Hin & Hshape)]; [now left | right].
      exists input. split.
      { apply list_elem_of_further, elem_of_app. now left. }
      destruct Hshape as [(Hone & Hno) | (Htwo & Hout)]; [left | right].
      * split; [exact Hone|]. intros q Hq.
        apply elem_of_cons in Hq as [Hq|Hq]; [discriminate Hq|].
        apply elem_of_app in Hq as [Hq|Hq]; [exact (Hno q Hq)|].
        destruct (Hev _ Hq) as (p & [Hp|Hp]); discriminate Hp.
      * split; [exact Htwo|].
        apply list_elem_of_further, elem_of_app. now left.
    + intros _. exact Hfirst.
  - rewrite transcribe_audio_too_large by exact Hgt. unfold events_of. cbn [snd].
    split_and!.
    + reflexivity.
    + now left.
    + lia.
Qed.

(** How the framework answers the transcribe endpoint: with the returned
    model and 200, or with the status and detail of the [HTTPException]. *)
Lemma respond_accepted (file : UploadFile) (language : option string) (s : State) :
  Z.of_nat (length (read file)) <= 25 * 2 ^ 20 ->
  exists resp, result_of (respond env Transcription (transcribe_audio env file language) s)
               = Returned resp /\
               (status_code resp = 200 \/ status_code resp = 500).
Proof.
  intros Hle.
  destruct (transcribe_audio_accepted file language s Hle)
    as (r & s1 & evs1 & s2 & evs2 & Ep & Ef & Hev & Hgone & Eq).
  destruct (protected_footprint _ _ _ _ _ _ Ep eq_refl eq_refl)
    as (_ & _ & [(a & ->) | (e & ->)] & _);
    unfold respond; rewrite Eq; eexists; (split; [reflexivity|]); simpl; auto.
Qed.

(** C6: the reply to an upload is a 413 exactly when the bytes read number
    more than 25 * 2^20; the refusal comes before anything else happens (the
    files on disk are untouched and the only event is the arrival log line,
    so no temporary file is written and the converter is not run); an upload
    of exactly 25 MiB is not refused. *)
Theorem payload_too_large_iff (file : UploadFile) (language : option string)
    (s : State) :
  let run := respond env Transcription (transcribe_audio env file language) s in
  (exists resp, result_of run = Returned resp /\
     (status_code resp = 413 <-> 25 * 2 ^ 20 < Z.of_nat (length (read file)))) /\
  (25 * 2 ^ 20 < Z.of_nat (length (read file)) ->
     state_of run = s /\ events_of run = [LogInfo (received_line file)]) /\
  (Z.of_nat (length (read file)) = 25 * 2 ^ 20 ->
     exists resp, result_of run = Returned resp /\ status_code resp <> 413).
Proof.
  cbv zeta.
  destruct (Z.le_gt_cases (Z.of_nat (length (read file))) (25 * 2 ^ 20)) as [Hle|Hgt].
  - destruct (respond_accepted file language s Hle) as (resp & E & Hst).
    split_and!.
    + exists resp. split; [exact E|]. split; intros H; [|lia].
      destruct Hst as [Hst|Hst]; rewrite Hst in H; discriminate H.
    + lia.
    + intros _. exists resp. split; [exact E|].
      destruct Hst as [Hst|Hst]; rewrite Hst; discriminate.
  - unfold respond. rewrite transcribe_audio_too_large by exact Hgt.
    unfold result_of, state_of, events_of. cbn [fst snd]. split_and!.
    + eexists. split; [reflexivity|]. simpl. split; intros _; [lia | reflexivity].
    + intros _. split; reflexivity.
    + lia.
Qed.

(** Only the cleanup's removal events can follow the events of the [try]
    block, and none of them is a recognizer call. *)
Lemma recognizer_not_in_removals (evs : list Event) (p : string)
    (l : option string) (h : bool) :
  (forall ev, ev ∈ evs -> exists q, ev = Removed q \/ ev = RemoveFailed q) ->
  RecognizerRun p l h ∉ evs.
Proof. intros H Hin. destruct (H _ Hin) as (q & [Hq|Hq]); discriminate Hq. Qed.

(** C9: in every successful request the recognizer is called once, on the
    output path that was handed to the converter (which exited with status
    0) and on the disk as the converter left it, with the caller's language
    hint and with fp16 off; the transcript is the recognizer's text stripped
    of white space at both ends, the language is the recognizer's language or
    "unknown" when it reports none, and the duration is whatever duration the
    recognizer reports, absent when it reports none. *)
Theorem recognizer_call_and_shaping (file : UploadFile) (language : option string)
    (s : State) (r : TranscriptionResponse.t) :
  result_of (transcribe_audio env file language s) = Returned r ->
  exists stem cp out res raw,
    tempfile_stem env (fs s) = inr stem /\
    (exists before after,
       events_of (transcribe_audio env file language s)
         = before ++ ConverterRun (ffmpeg_argv (ogg_of stem) (wav_of stem)) :: after /\
       RecognizerRun (wav_of stem) language false ∈ after) /\
    (forall p l h,
       RecognizerRun p l h ∈ events_of (transcribe_audio env file language s) ->
       p = wav_of stem /\ l = language /\ h = false) /\
    ffmpeg env (ffmpeg_argv (ogg_of stem) (wav_of stem)) (saved stem (read file) (fs s))
      = inr (cp, out) /\
    returncode cp = 0 /\
    whisper_transcribe env (wav_of stem) language false
      (converted stem (read file) out (fs s)) = inr res /\
    r_text res = Some raw /\
    TranscriptionResponse.transcript r = PyStr.strip raw /\
    (exists l t, raw = l +:+ TranscriptionResponse.transcript r +:+ t /\
                 PyStr.all_space l = true /\ PyStr.all_space t = true) /\
    (forall c, PyStr.first_char (TranscriptionResponse.transcript r) = Some c ->
               PyStr.isspace c = false) /\
    (forall c, PyStr.last_char (TranscriptionResponse.transcript r) = Some c ->
               PyStr.isspace c = false) /\
    TranscriptionResponse.language r = default "unknown" (r_language res) /\
    TranscriptionResponse.duration r = r_duration res.
Proof.
  intros H.
  apply transcribe_audio_returned in H as (_ & s1 & evs1 & s2 & evs2 & Hb & Hev & Eq).
  apply try_block_returned in Hb as (stem & cp & out & res & raw & Hb).
  cbv zeta in Hb. destruct Hb as (Hstem & Hff & Hrc & Hw & Htext & -> & ->).
  rewrite Eq. unfold events_of. cbn [snd fs enter_try] in *.
  exists stem, cp, out, res, raw.
  destruct (strip_spec raw) as (Hdec & Hfirst & Hlast).
  unfold converted, saved, ogg_of, wav_of.
  split_and!; try done; try exact Hw.
  - exists [LogInfo (received_line file); TempCreated (stem +:+ ".ogg");
            FileWritten (stem +:+ ".ogg") (read file)]. eexists.
    split; [reflexivity|].
    apply elem_of_app; left. apply elem_of_app; right. in_list.
  - intros p l h Hin.
    apply elem_of_cons in Hin as [Hin|Hin]; [discriminate Hin|].
    apply elem_of_app in Hin as [Hin|Hin];
      [|exfalso; exact (recognizer_not_in_removals _ _ _ _ Hev Hin)].
    do 3 (apply elem_of_cons in Hin as [Hin|Hin]; [discriminate Hin|]).
    apply elem_of_app in Hin as [Hin|Hin].
    + destruct out; decompose_in Hin.
    + apply elem_of_cons in Hin as [Hin|Hin]; [discriminate Hin|].
      apply elem_of_cons in Hin as [Hin|Hin]; [now injection Hin as -> -> ->|].
      decompose_in Hin.
Qed.

(** C10: two uploads with the same bytes and the same language hint are
    handled alike whatever their declared names and content types: the same
    reply, the same files on disk afterwards, and the same events (bytes
    written, converter and recognizer calls, removals) after the first log
    line, which is the only place where the name and type appear. *)
Theorem declared_name_and_type_only_logged (contents : list byte)
    (language : option string) (name1 type1 name2 type2 : option string) (s : State) :
  let file1 := {| filename := name1; content_type := type1; read := contents |} in
  let file2 := {| filename := name2; content_type := type2; read := contents |} in
  let run1 := respond env Transcription (transcribe_audio env file1 language) s in
  let run2 := respond env Transcription (transcribe_audio env file2 language) s in
  result_of run1 = result_of run2 /\
  state_of run1 = state_of run2 /\
  exists rest, events_of run1 = LogInfo (received_line file1) :: rest /\
               events_of run2 = LogInfo (received_line file2) :: rest.
Proof.
  cbv zeta. unfold respond.
  destruct (Z.le_gt_cases (Z.of_nat (length contents)) (25 * 2 ^ 20)) as [Hle|Hgt].
  - destruct (transcribe_audio_accepted
                {| filename := name1; content_type := type1; read := contents |}
                language s Hle)
      as (r & s1 & evs1 & s2 & evs2 & Ep & Ef & _ & _ & Eq).
    destruct (transcribe_audio_accepted
                {| filename := name2; content_type := type2; read := contents |}
                language s Hle)
      as (r' & s1' & evs1' & s2' & evs2' & Ep' & Ef' & _ & _ & Eq').
    cbn [read] in Ep, Ep'. rewrite Ep in Ep'. injection Ep' as <- <- <-.
    rewrite Ef in Ef'. injection Ef' as <- <-.
    rewrite Eq, Eq'.
    destruct r as [a | [c d | m]]; unfold general_exception_handler; run;
      (split_and!; [reflexivity | reflexivity | eexists; split; reflexivity]).
  - rewrite !transcribe_audio_too_large by exact Hgt.
    unfold result_of, state_of, events_of. cbn [fst snd].
    split_and!; [reflexivity | reflexivity | eexists; split; reflexivity].
Qed.

(** C4, as the code has it: when ffmpeg exits with a non-zero status the
    reply is a 500 and the diagnostic output is logged, but the detail the
    client sees is what [str] gives for the structured error that carries
    "Audio conversion failed", because the [except] clause catches that
    error too. *)
Theorem conversion_failure_reply (file : UploadFile) (language : option string)
    (s : State) (stem : string) (cp : CompletedProcess) (out : option (list byte)) :
  Z.of_nat (length (read file)) <= 25 * 2 ^ 20 ->
  tempfile_stem env (fs s) = inr stem ->
  fs s !! (stem +:+ ".ogg") = None ->
  write_error env (stem +:+ ".ogg") (read file) (<[stem +:+ ".ogg" := []]> (fs s)) = None ->
  close_error env (stem +:+ ".ogg") (saved stem (read file) (fs s)) = None ->
  ffmpeg env (ffmpeg_argv (stem +:+ ".ogg") (PyStr.replace (stem +:+ ".ogg") ".ogg" ".wav"))
    (saved stem (read file) (fs s)) = inr (cp, out) ->
  returncode cp <> 0 ->
  result_of (respond env Transcription (transcribe_audio env file language) s)
    = Returned {| status_code := 500;
                  content := Detail (str_HTTPException env 500 "Audio conversion failed") |} /\
  LogError ("FFmpeg error: " +:+ stderr cp)
    ∈ events_of (respond env Transcription (transcribe_audio env file language) s).
Proof.
  intros Hle Hstem Hfresh Hwrite Hclose Hff Hrc.
  destruct (transcribe_audio_accepted file language s Hle)
    as (r & s1 & evs1 & s2 & evs2 & Ep & Ef & _ & _ & Eq).
  unfold respond. rewrite Eq. clear Eq Ef.
  unfold saved, ffmpeg_argv in *. revert Ep. exec_try_block.
  rewrite Hstem, Hfresh. simpl. apply Z.eqb_neq in Hrc.
  destruct (length (read file) <=? buffer_size env)%nat; simpl;
    rewrite ?Hwrite; simpl; rewrite Hclose; simpl; rewrite Hff;
    destruct out; simpl; rewrite Hrc; simpl;
    intros [= <- <- <-]; (split; [reflexivity|]); simpl;
    apply list_elem_of_further; in_list.
Qed.

(** C5, as the code has it: every exception raised in the [try] block,
    a structured HTTP error included, is caught, logged and raised again as
    a 500 whose detail is [str] of the exception; and the handler registered
    for [Exception] answers 500 "Internal server error" whatever it is
    given. *)
Theorem every_exception_is_rewrapped (file : UploadFile) (language : option string)
    (s s1 : State) (e : Exn) (evs : list Event) :
  Z.of_nat (length (read file)) <= 25 * 2 ^ 20 ->
  try_block env (read file) language (enter_try s) = (Raised e, s1, evs) ->
  result_of (transcribe_audio env file language s)
    = Raised (HTTPException 500 (str env e)) /\
  LogError ("Transcription error: " +:+ str env e)
    ∈ events_of (transcribe_audio env file language s) /\
  (forall exc s0,
     result_of (general_exception_handler env exc s0)
     = Returned {| status_code := 500; content := Detail "Internal server error" |}).
Proof.
  intros Hle Hb.
  destruct (transcribe_audio_accepted file language s Hle)
    as (r & s1' & evs1 & s2 & evs2 & Ep & Ef & _ & _ & Eq).
  rewrite Eq. unfold try_except in Ep. rewrite Hb in Ep.
  unfold except_clause in Ep. run. injection Ep as <- <- <-.
  split_and!.
  - reflexivity.
  - apply list_elem_of_further, elem_of_app. left.
    apply elem_of_app. right. in_list.
  - reflexivity.
Qed.

(** C8, as the code has it: the module binds [MODEL_SIZE] from the
    environment variable named "tiny" with default "base", but start-up and
    both health endpoints read the global [tiny], which nothing binds; each
    raises a [NameError], and the framework answers a health request with
    500 "Internal server error", for every environment. *)
Theorem health_reads_unbound_name (environ : gmap string string) (s : State) :
  module_globals environ !! "MODEL_SIZE" = Some (os_getenv environ "tiny" "base") /\
  result_of (startup environ s) = Raised (PyError "name 'tiny' is not defined") /\
  result_of (root (module_globals environ) s)
    = Raised (PyError "name 'tiny' is not defined") /\
  result_of (health (module_globals environ) s)
    = Raised (PyError "name 'tiny' is not defined") /\
  result_of (respond env Health (root (module_globals environ)) s)
    = Returned {| status_code := 500; content := Detail "Internal server error" |} /\
  result_of (respond env Health (health (module_globals environ)) s)
    = Returned {| status_code := 500; content := Detail "Internal server error" |}.
Proof.
  assert (Hnone : module_globals environ !! "tiny" = None).
  { unfold module_globals. apply lookup_singleton_ne. discriminate. }
  unfold respond, startup, root, health, load_global, general_exception_handler.
  rewrite Hnone. run. split_and!; reflexivity.
Qed.

End HandlerFacts.

(** * Concrete runs *)

(** The handler on a four-byte Ogg upload, Whisper hearing 151 characters:
    the tldr is the first 150 of them and "...". *)
Lemma tldr_truncates_transcript_witness :
  result_of (transcribe_audio long_env ogg_upload None idle) = Returned long_reply /\
  (let t := TranscriptionResponse.transcript long_reply in
   let d := TranscriptionResponse.tldr long_reply in
   ((String.length t <= 150)%nat -> d = t) /\
   ((150 < String.length t)%nat ->
      d = PyStr.slice_to 150 t +:+ "..." /\
      String.length (PyStr.slice_to 150 t) = 150%nat /\
      PyStr.startswith t (PyStr.slice_to 150 t) = true) /\
   (String.length d <= 153)%nat).
Proof.
  assert (H : result_of (transcribe_audio long_env ogg_upload None idle)
              = Returned long_reply) by (vm_compute; reflexivity).
  split; [exact H|].
  exact (tldr_truncates_transcript long_env ogg_upload None idle long_reply H).
Defined.

(** C3 fails as stated: with a transcript of 151 characters the successful
    response has a tldr of 153 characters, which is no prefix of the
    transcript; and a transcript of seven characters that ends in "..." gives
    a tldr ending in "..." although the transcript is not longer than 150. *)
Lemma tldr_is_not_always_a_prefix :
  (Z.of_nat (length (read ogg_upload)) <= 25 * 2 ^ 20 /\
   result_of (transcribe_audio long_env ogg_upload None idle) = Returned long_reply /\
   TranscriptionResponse.status long_reply = "success" /\
   PyStr.startswith (TranscriptionResponse.transcript long_reply)
     (TranscriptionResponse.tldr long_reply) = false) /\
  (result_of (transcribe_audio trailing_env ogg_upload None idle)
     = Returned trailing_reply /\
   PyStr.endswith (TranscriptionResponse.tldr trailing_reply) "..." = true /\
   (String.length (TranscriptionResponse.transcript trailing_reply) <= 150)%nat).
Proof.
  split_and!; try (vm_compute; reflexivity).
  - vm_compute. discriminate.
  - cbn. lia.
Qed.

Lemma tldr_extends_a_prefix_witness :
  Z.of_nat (length (read ogg_upload)) <= 25 * 2 ^ 20 /\
  result_of (transcribe_audio long_env ogg_upload None idle) = Returned long_reply /\
  (let t := TranscriptionResponse.transcript long_reply in
   let d := TranscriptionResponse.tldr long_reply in
   TranscriptionResponse.status long_reply = "success" /\
   ((String.length t <= 150)%nat -> d = t /\ PyStr.startswith t d = true) /\
   ((150 < String.length t)%nat ->
      exists head, d = head +:+ "..." /\ PyStr.startswith t head = true /\
                   String.length head = 150%nat /\ PyStr.endswith d "..." = true) /\
   (String.length d <= 153)%nat).
Proof.
  assert (Hle : Z.of_nat (length (read ogg_upload)) <= 25 * 2 ^ 20)
    by (vm_compute; discriminate).
  assert (H : result_of (transcribe_audio long_env ogg_upload None idle)
              = Returned long_reply) by (vm_compute; reflexivity).
  split_and!; [exact Hle | exact H |].
  exact (tldr_extends_a_prefix long_env ogg_upload None idle long_reply Hle H).
Defined.

(** C1 fails as stated: when [os.remove] fails for the upload copy, the
    request still succeeds and the copy it created is still on disk
    afterwards, with the bytes of the upload in it. *)
Lemma undeletable_upload_copy_remains :
  Z.of_nat (length (read ogg_upload)) <= 25 * 2 ^ 20 /\
  result_of (transcribe_audio stuck_env ogg_upload None idle) = Returned short_reply /\
  created (events_of (transcribe_audio stuck_env ogg_upload None idle))
    = ["/tmp/tmpk3x9_q2a.ogg"; "/tmp/tmpk3x9_q2a.wav"] /\
  fs (state_of (transcribe_audio stuck_env ogg_upload None idle)) !! "/tmp/tmpk3x9_q2a.ogg"
    = Some (read ogg_upload) /\
  fs (state_of (transcribe_audio stuck_env ogg_upload None idle)) !! "/tmp/tmpk3x9_q2a.wav"
    = None.
Proof.
  split_and!; try (vm_compute; reflexivity).
  vm_compute. discriminate.
Qed.

Lemma cleanup_is_best_effort_witness :
  Z.of_nat (length (read ogg_upload)) <= 25 * 2 ^ 20 /\
  (let run := transcribe_audio stuck_env ogg_upload None idle in
   (forall s0, result_of (finally_block stuck_env s0) = Returned tt) /\
   result_of run
     = result_of (try_except (try_block stuck_env (read ogg_upload) None)
                    (except_clause stuck_env) (enter_try idle)) /\
   (forall p, p ∈ created (events_of run) -> WriteFailed p ∉ events_of run ->
              fs (state_of run) !! p = None \/ RemoveFailed p ∈ events_of run)).
Proof.
  assert (Hle : Z.of_nat (length (read ogg_upload)) <= 25 * 2 ^ 20)
    by (vm_compute; discriminate).
  split; [exact Hle|].
  exact (cleanup_is_best_effort stuck_env ogg_upload None idle Hle).
Defined.

(** The path the amended C1 leaves out: when writing the upload fails, the
    temporary file exists but its name was never stored in
    [tmp_input_path], so the cleanup does not try to remove it and the file
    stays on disk with the bytes that had landed. *)
Example failed_write_leaves_the_file :
  result_of (transcribe_audio full_disk_env six_thousand_bytes None idle)
    = Raised (HTTPException 500 "[Errno 28] No space left on device") /\
  events_of (transcribe_audio full_disk_env six_thousand_bytes None idle)
    = [LogInfo "Received file: talk.ogg, type: audio/ogg";
       TempCreated "/tmp/tmpk3x9_q2a.ogg";
       WriteFailed "/tmp/tmpk3x9_q2a.ogg";
       LogError "Transcription error: [Errno 28] No space left on device"] /\
  fs (state_of (transcribe_audio full_disk_env six_thousand_bytes None idle))
    !! "/tmp/tmpk3x9_q2a.ogg"
    = Some (repeat x00 1024).
Proof. split_and!; vm_compute; reflexivity. Qed.

(** An upload that fits the buffer fails only when the file is closed; by
    then its name is stored in [tmp_input_path], so the cleanup removes the
    file. *)
Example buffered_write_fails_at_close :
  result_of (transcribe_audio full_disk_env two_thousand_bytes None idle)
    = Raised (HTTPException 500 "[Errno 28] No space left on device") /\
  events_of (transcribe_audio full_disk_env two_thousand_bytes None idle)
    = [LogInfo "Received file: memo.ogg, type: audio/ogg";
       TempCreated "/tmp/tmpk3x9_q2a.ogg";
       FileWritten "/tmp/tmpk3x9_q2a.ogg" (repeat x00 2000);
       LogError "Transcription error: [Errno 28] No space left on device";
       Removed "/tmp/tmpk3x9_q2a.ogg"] /\
  fs (state_of (transcribe_audio full_disk_env two_thousand_bytes None idle))
    !! "/tmp/tmpk3x9_q2a.ogg"
    = None.
Proof. split_and!; vm_compute; reflexivity. Qed.

(** C7 fails as stated: when ffmpeg rejects the upload and writes no output,
    the request creates one temporary entry, not two. *)
Lemma rejected_upload_creates_one_entry :
  result_of (transcribe_audio rejecting_env ogg_upload None idle)
    = Raised (HTTPException 500 "500: Audio conversion failed") /\
  created (events_of (transcribe_audio rejecting_env ogg_upload None idle))
    = ["/tmp/tmpk3x9_q2a.ogg"] /\
  length (created (events_of (transcribe_audio rejecting_env ogg_upload None idle)))
    <> 2%nat.
Proof.
  split_and!; try (vm_compute; reflexivity).
  vm_compute. discriminate.
Qed.

(** The 30 MB scenario: the reply is decided by the size check alone, and
    nothing but the arrival line is logged. *)
Lemma payload_too_large_iff_witness :
  let run := respond quiet_env Transcription
               (transcribe_audio quiet_env thirty_megabytes None) idle in
  state_of run = idle /\ events_of run = [LogInfo (received_line thirty_megabytes)].
Proof.
  apply (proj1 (proj2 (payload_too_large_iff quiet_env thirty_megabytes None idle))).
  unfold thirty_megabytes. cbn [read].
  rewrite repeat_length, Z2Nat.id by lia. lia.
Defined.

(** The bytes ffmpeg rejects: the client reads "500: Audio conversion failed",
    not "Audio conversion failed", and the diagnostic is in the log only. *)
Lemma conversion_failure_reply_witness :
  result_of (respond rejecting_env Transcription
               (transcribe_audio rejecting_env ogg_upload None) idle)
    = Returned {| status_code := 500;
                  content := Detail "500: Audio conversion failed" |} /\
  LogError "FFmpeg error: Invalid data found when processing input"
    ∈ events_of (respond rejecting_env Transcription
                   (transcribe_audio rejecting_env ogg_upload None) idle) /\
  Detail "500: Audio conversion failed" <> Detail "Audio conversion failed".
Proof.
  destruct (conversion_failure_reply rejecting_env ogg_upload None idle
              "/tmp/tmpk3x9_q2a"
              {| returncode := 1; stderr := "Invalid data found when processing input" |}
              None
              ltac:(vm_compute; discriminate)
              ltac:(reflexivity) ltac:(reflexivity) ltac:(reflexivity) ltac:(reflexivity)
              ltac:(reflexivity)
              ltac:(vm_compute; discriminate)) as [Hreply Hlog].
  split_and!; [exact Hreply | exact Hlog | discriminate].
Defined.

(** The structured error raised for a failed conversion does not pass through
    unchanged: the handler raises a new one whose detail is [str] of it. *)
Lemma every_exception_is_rewrapped_witness :
  result_of (try_block rejecting_env (read ogg_upload) None (enter_try idle))
    = Raised (HTTPException 500 "Audio conversion failed") /\
  result_of (transcribe_audio rejecting_env ogg_upload None idle)
    = Raised (HTTPException 500 "500: Audio conversion failed").
Proof.
  split; [vm_compute; reflexivity|].
  refine (proj1 (every_exception_is_rewrapped rejecting_env ogg_upload None idle
                   _ (HTTPException 500 "Audio conversion failed") _ _ _)).
  - vm_compute; discriminate.
  - reflexivity.
Defined.

(** A successful run: Whisper is called on the converter's output path with
    no language hint and fp16 off, and its text comes back stripped. *)
Lemma recognizer_call_and_shaping_witness :
  result_of (transcribe_audio quiet_env ogg_upload None idle) = Returned quiet_reply /\
  exists stem cp out res raw,
    tempfile_stem quiet_env (fs idle) = inr stem /\
    (exists before after,
       events_of (transcribe_audio quiet_env ogg_upload None idle)
         = before ++ ConverterRun (ffmpeg_argv (ogg_of stem) (wav_of stem)) :: after /\
       RecognizerRun (wav_of stem) None false ∈ after) /\
    (forall p l h,
       RecognizerRun p l h ∈ events_of (transcribe_audio quiet_env ogg_upload None idle) ->
       p = wav_of stem /\ l = None /\ h = false) /\
    ffmpeg quiet_env (ffmpeg_argv (ogg_of stem) (wav_of stem))
      (saved stem (read ogg_upload) (fs idle))
      = inr (cp, out) /\
    returncode cp = 0 /\
    whisper_transcribe quiet_env (wav_of stem) None false
      (converted stem (read ogg_upload) out (fs idle)) = inr res /\
    r_text res = Some raw /\
    TranscriptionResponse.transcript quiet_reply = PyStr.strip raw /\
    (exists l t, raw = l +:+ TranscriptionResponse.transcript quiet_reply +:+ t /\
                 PyStr.all_space l = true /\ PyStr.all_space t = true) /\
    (forall c, PyStr.first_char (TranscriptionResponse.transcript quiet_reply) = Some c ->
               PyStr.isspace c = false) /\
    (forall c, PyStr.last_char (TranscriptionResponse.transcript quiet_reply) = Some c ->
               PyStr.isspace c = false) /\
    TranscriptionResponse.language quiet_reply = default "unknown" (r_language res) /\
    TranscriptionResponse.duration quiet_reply = r_duration res.
Proof.
  assert (H : result_of (transcribe_audio quiet_env ogg_upload None idle)
              = Returned quiet_reply) by (vm_compute; reflexivity).
  split; [exact H|].
  exact (recognizer_call_and_shaping quiet_env ogg_upload None idle quiet_reply H).
Defined.

(** ** The string operations on concrete strings *)

Example strip_removes_both_ends : PyStr.strip "  hello world  " = "hello world".
Proof. reflexivity. Qed.

Example replace_swaps_the_suffix :
  PyStr.replace "/tmp/tmpab12.ogg" ".ogg" ".wav" = "/tmp/tmpab12.wav".
Proof. reflexivity. Qed.

(** [replace] rewrites every occurrence, also one inside the directory name. *)
Example replace_rewrites_every_occurrence :
  PyStr.replace "/data/in.ogg.d/tmpab12.ogg" ".ogg" ".wav" = "/data/in.wav.d/tmpab12.wav".
Proof. reflexivity. Qed.

Example starlette_str_of_500 :
  starlette_str 500 "Audio conversion failed" = "500: Audio conversion failed".
Proof. reflexivity. Qed.

(** Exactly 25 MiB is 25.0 megabytes, which is not above the limit. *)
Example file_size_at_the_limit :
  forall contents : list byte,
    Z.of_nat (length contents) = 25 * 2 ^ 20 -> (file_size contents == 25)%Q.
Proof.
  intros contents H. unfold file_size. rewrite H.
  unfold Qeq, Qdiv, Qmult, Qinv, inject_Z. simpl. reflexivity.
Qed.

(** The same four bytes sent as note.ogg (audio/ogg) and as memo.bin with no
    content type: the two runs differ in their first log line and in nothing
    else. *)
Lemma declared_name_and_type_only_logged_witness :
  (let run1 := respond quiet_env Transcription
                 (transcribe_audio quiet_env ogg_upload None) idle in
   let run2 := respond quiet_env Transcription
                 (transcribe_audio quiet_env renamed_upload None) idle in
   result_of run1 = result_of run2 /\
   state_of run1 = state_of run2 /\
   exists rest, events_of run1 = LogInfo (received_line ogg_upload) :: rest /\
                events_of run2 = LogInfo (received_line renamed_upload) :: rest) /\
  received_line ogg_upload <> received_line renamed_upload.
Proof.
  split.
  - exact (declared_name_and_type_only_logged quiet_env [x4f; x67; x67; x53] None
             (Some "note.ogg") (Some "audio/ogg") (Some "memo.bin") None idle).
  - vm_compute. discriminate.
Defined.

(** * More facts about the handler *)

Section DiskAndCalls.

Context (env : Env).

Ltac run :=
  unfold mbind, M_bind, mret, M_ret, raise, emit, get_state,
    set_tmp_input_path, set_wav_path, logger_info, logger_error,
    try_except, try_finally, result_of, state_of, events_of, with_fs in *;
  simpl in *.

Ltac by_case :=
  first [ reflexivity | eassumption | eexists; first [reflexivity | eassumption] ].

Ltac frame :=
  let q := fresh "q" in
  let Hq := fresh "Hq" in
  intros q Hq; cbn [fs]; rewrite ?lookup_insert_ne by congruence; reflexivity.

Ltac exec_try_block :=
  unfold try_block, NamedTemporaryFile, file_write, file_close, subprocess_run,
    model_transcribe, except_clause; run.

Lemma converter_calls_app (l1 l2 : list Event) :
  converter_calls (l1 ++ l2) = converter_calls l1 ++ converter_calls l2.
Proof.
  induction l1 as [|ev l1 IH]; [reflexivity|].
  destruct ev; simpl; rewrite ?IH; reflexivity.
Qed.

Lemma recognizer_calls_app (l1 l2 : list Event) :
  recognizer_calls (l1 ++ l2) = recognizer_calls l1 ++ recognizer_calls l2.
Proof.
  induction l1 as [|ev l1 IH]; [reflexivity|].
  destruct ev; simpl; rewrite ?IH; reflexivity.
Qed.

(** Removal events are no converter or recognizer calls. *)
Lemma removals_call_nothing (evs : list Event) :
  (forall ev, ev ∈ evs -> exists p, ev = Removed p \/ ev = RemoveFailed p) ->
  converter_calls evs = [] /\ recognizer_calls evs = [].
Proof.
  induction evs as [|ev evs IH]; intros H; [split; reflexivity|].
  destruct (H ev) as (p & [-> | ->]); [apply list_elem_of_here | |];
    simpl; apply IH; intros ev' Hev'; apply H, list_elem_of_further, Hev'.
Qed.

(** One round of the cleanup loop touches no path but its own, and reports a
    failed removal only when [os.remove] failed. *)
Lemma remove_quietly_frame (path : option string) (s : State) :
  (forall q, path <> Some q ->
             fs (state_of (remove_quietly env path s)) !! q = fs s !! q) /\
  (forall ev, ev ∈ events_of (remove_quietly env path s) ->
              exists p, path = Some p /\
                (ev = Removed p \/
                 ev = RemoveFailed p /\ exists e, remove_error env p (fs s) = Some e)).
Proof.
  unfold remove_quietly.
  destruct path as [p|]; cycle 1.
  { run. split; [reflexivity|]. intros ev Hev; decompose_in Hev. }
  destruct (String.eqb p "").
  { run. split; [reflexivity|]. intros ev Hev; decompose_in Hev. }
  unfold os_path_exists, os_remove; run.
  destruct (fs s !! p) as [d|] eqn:Hd; simpl.
  - rewrite Hd. destruct (remove_error env p (fs s)) as [e|] eqn:He; simpl.
    + split; [reflexivity|]. intros ev Hev; decompose_in Hev.
      exists p; split; [reflexivity|]. right; eauto.
    + split.
      * intros q Hq. apply lookup_delete_ne. congruence.
      * intros ev Hev; decompose_in Hev. exists p; split; [reflexivity|]. now left.
  - split; [reflexivity|]. intros ev Hev; decompose_in Hev.
Qed.

(** The [finally] block touches no path but the two locals, and reports a
    failed removal only when [os.remove] failed. *)
Lemma finally_block_frame (s : State) :
  (forall q, tmp_input_path s <> Some q -> wav_path s <> Some q ->
             fs (state_of (finally_block env s)) !! q = fs s !! q) /\
  (forall p, RemoveFailed p ∈ events_of (finally_block env s) ->
             exists files e, remove_error env p files = Some e).
Proof.
  destruct (remove_quietly_spec env (tmp_input_path s) s)
    as (s1 & evs1 & E1 & Ht1 & Hw1 & _).
  destruct (remove_quietly_spec env (wav_path s) s1)
    as (s2 & evs2 & E2 & _).
  destruct (remove_quietly_frame (tmp_input_path s) s) as (F1 & G1).
  destruct (remove_quietly_frame (wav_path s) s1) as (F2 & G2).
  unfold finally_block, for_each; run.
  rewrite E1 in *. simpl in *. rewrite E2 in *. simpl in *. split.
  - intros q Hq1 Hq2. rewrite F2, F1; auto.
  - intros p [Hin|Hin]%elem_of_app.
    + destruct (G1 _ Hin) as (p' & _ & [Hp | (Hp & e & He)]); [discriminate Hp|].
      injection Hp as ->. eauto.
    + rewrite app_nil_r in Hin.
      destruct (G2 _ Hin) as (p' & _ & [Hp | (Hp & e & He)]); [discriminate Hp|].
      injection Hp as ->. eauto.
Qed.

(** Where the [try]/[except] pair leaves the disk and the two locals, path by
    path: nothing created; the copy created but the write raised; written
    but the close raised; or written and closed, with the converter's output
    if any.  On the first three paths only the copy can differ from the disk
    before the request. *)
Lemma protected_disk (contents : list byte) (language : option string)
    (s s1 : State) (r : Result TranscriptionResponse.t) (evs : list Event) :
  try_except (try_block env contents language) (except_clause env) s = (r, s1, evs) ->
  tmp_input_path s = None -> wav_path s = None ->
  (fs s1 = fs s /\ tmp_input_path s1 = None /\ wav_path s1 = None /\
   match tempfile_stem env (fs s) with
   | inl _ => True
   | inr stem => is_Some (fs s !! (stem +:+ ".ogg"))
   end) \/
  exists stem,
    tempfile_stem env (fs s) = inr stem /\ fs s !! (stem +:+ ".ogg") = None /\
    ((exists e, write_error env (stem +:+ ".ogg") contents
                  (<[stem +:+ ".ogg" := []]> (fs s)) = Some e) /\
     (forall q, q <> stem +:+ ".ogg" -> fs s1 !! q = fs s !! q) /\
     tmp_input_path s1 = None /\ wav_path s1 = None
     \/
     tmp_input_path s1 = Some (stem +:+ ".ogg") /\
     ((exists e, close_error env (stem +:+ ".ogg") (saved stem contents (fs s)) = Some e) /\
      wav_path s1 = None /\
      (forall q, q <> stem +:+ ".ogg" -> fs s1 !! q = fs s !! q)
      \/
      close_error env (stem +:+ ".ogg") (saved stem contents (fs s)) = None /\
      wav_path s1 = Some (PyStr.replace (stem +:+ ".ogg") ".ogg" ".wav") /\
      exists out,
        fs s1 = match out with
                | Some d => <[PyStr.replace (stem +:+ ".ogg") ".ogg" ".wav" := d]>
                              (saved stem contents (fs s))
                | None => saved stem contents (fs s)
                end)).
Proof.
  exec_try_block. unfold saved. intros H Ht Hw.
  repeat (case_match; simpl in *; simplify_eq).
  all: first
    [ left; split_and!; solve [done | eauto]
    | right; eexists; split; [by_case|]; split; [by_case|];
      first
        [ left; split_and!; first [by_case | frame]
        | right; split; [reflexivity|];
          first
            [ left; split_and!; first [by_case | frame]
            | right; split; [by_case|]; split; [reflexivity|];
              first [ exists None; reflexivity | eexists (Some _); reflexivity ] ] ] ].
Qed.

(** What the [try]/[except] pair asks of the converter and the recognizer on
    any path. *)
Lemma protected_calls (contents : list byte) (language : option string)
    (s s1 : State) (r : Result TranscriptionResponse.t) (evs : list Event) :
  try_except (try_block env contents language) (except_clause env) s = (r, s1, evs) ->
  (converter_calls evs = [] \/
   exists stem before after,
     tempfile_stem env (fs s) = inr stem /\
     converter_calls evs
       = [ffmpeg_argv (stem +:+ ".ogg") (PyStr.replace (stem +:+ ".ogg") ".ogg" ".wav")] /\
     evs = before
           ++ ConverterRun (ffmpeg_argv (stem +:+ ".ogg")
                              (PyStr.replace (stem +:+ ".ogg") ".ogg" ".wav"))
           :: after /\
     FileWritten (stem +:+ ".ogg") contents ∈ before) /\
  (recognizer_calls evs = [] \/
   exists stem cp out,
     tempfile_stem env (fs s) = inr stem /\
     ffmpeg env (ffmpeg_argv (stem +:+ ".ogg") (PyStr.replace (stem +:+ ".ogg") ".ogg" ".wav"))
       (saved stem contents (fs s)) = inr (cp, out) /\
     returncode cp = 0 /\
     recognizer_calls evs
       = [(PyStr.replace (stem +:+ ".ogg") ".ogg" ".wav", language, false)]).
Proof.
  exec_try_block. unfold saved, ffmpeg_argv. intros H.
  repeat (case_match; simpl in *; simplify_eq).
  all: try match goal with
       | Hrc : negb (returncode _ =? 0) = false |- _ =>
           apply negb_false_iff, Z.eqb_eq in Hrc
       end.
  all: split.
  all: first
    [ left; reflexivity
    | right; eexists _, [_; _], _; split_and!;
      [ reflexivity | reflexivity | reflexivity | in_list ]
    | right; eexists _, _, _; split_and!;
      [ reflexivity | eassumption | eassumption | reflexivity ] ].
Qed.

(** With both locals unset the [finally] block does nothing. *)
Lemma finally_block_idle (s : State) :
  tmp_input_path s = None -> wav_path s = None ->
  finally_block env s = (Returned tt, s, []).
Proof.
  intros Ht Hw. unfold finally_block, for_each, remove_quietly; run.
  rewrite Ht, Hw. destruct s; reflexivity.
Qed.

(** X1: when the upload does not fit the buffer of the temporary file and
    writing it raises, the name of the file is never recorded, so the cleanup
    removes nothing and the file the request created stays on disk, holding
    the bytes that had landed (fewer still when closing the file raises as
    well); the reply is a 500 whose detail is [str] of the exception of the
    write, or of the close when that raises too. *)
Theorem failed_write_strands_the_copy (file : UploadFile) (language : option string)
    (s : State) (stem : string) (e : Exn) :
  Z.of_nat (length (read file)) <= 25 * 2 ^ 20 ->
  tempfile_stem env (fs s) = inr stem ->
  fs s !! ogg_of stem = None ->
  (buffer_size env < length (read file))%nat ->
  write_error env (ogg_of stem) (read file) (<[ogg_of stem := []]> (fs s)) = Some e ->
  let run := transcribe_audio env file language s in
  let part := landed env stem (read file) (fs s) in
  let files := <[ogg_of stem := part]> (<[ogg_of stem := []]> (fs s)) in
  created (events_of run) = [ogg_of stem] /\
  WriteFailed (ogg_of stem) ∈ events_of run /\
  (forall p, (Removed p ∉ events_of run) /\ (RemoveFailed p ∉ events_of run)) /\
  match close_error env (ogg_of stem) files with
  | None =>
      result_of run = Raised (HTTPException 500 (str env e)) /\
      fs (state_of run) !! ogg_of stem = Some part
  | Some e' =>
      result_of run = Raised (HTTPException 500 (str env e')) /\
      fs (state_of run) !! ogg_of stem
        = Some (take (bytes_landed env (ogg_of stem) part files) part)
  end.
Proof.
  unfold ogg_of, landed. intros Hle Hstem Hfresh Hbig Hwrite.
  destruct (transcribe_audio_accepted env file language s Hle)
    as (r & s1 & evs1 & s2 & evs2 & Ep & Ef & _ & _ & Eq).
  cbv zeta. rewrite Eq. clear Eq. revert Ep. exec_try_block.
  apply Nat.leb_gt in Hbig.
  rewrite Hstem, Hfresh. simpl. rewrite Hbig, Hwrite. simpl.
  rewrite lookup_insert_eq.
  destruct (close_error env (stem +:+ ".ogg") _);
    simpl; intros [= <- <- <-];
    rewrite finally_block_idle in Ef by reflexivity; injection Ef as <- <-;
    (split_and!;
     [ reflexivity
     | in_list
     | intros p; split; intros Hin; decompose_in Hin
     | reflexivity
     | simpl; apply lookup_insert_eq ]).
Qed.

(** X2: a request changes no file other than its own two temporary paths:
    whatever happens, every other path holds after the request what it held
    before. *)
Theorem other_files_untouched (file : UploadFile) (language : option string)
    (s : State) (q : string) :
  (forall stem, tempfile_stem env (fs s) = inr stem ->
                q <> ogg_of stem /\ q <> wav_of stem) ->
  fs (state_of (transcribe_audio env file language s)) !! q = fs s !! q.
Proof.
  unfold ogg_of, wav_of. intros Hq.
  destruct (Z.le_gt_cases (Z.of_nat (length (read file))) (25 * 2 ^ 20)) as [Hle|Hgt];
    [|now rewrite transcribe_audio_too_large by exact Hgt].
  destruct (transcribe_audio_accepted env file language s Hle)
    as (r & s1 & evs1 & s2 & evs2 & Ep & Ef & _ & _ & Eq).
  rewrite Eq. unfold state_of. cbn [fst snd].
  destruct (finally_block_frame s1) as (Hframe & _).
  rewrite Ef in Hframe. unfold state_of in Hframe. cbn [fst snd] in Hframe.
  destruct (protected_disk _ _ _ _ _ _ Ep eq_refl eq_refl)
    as [(Hfs & Ht & Hw & _) | (stem & Hstem & Hfresh & Hcase)].
  { rewrite Hframe by (rewrite ?Ht, ?Hw; discriminate). now rewrite Hfs. }
  destruct (Hq stem Hstem) as (Hq1 & Hq2).
  destruct Hcase as [(_ & Hfs & Ht & Hw) | (Ht & [(_ & Hw & Hfs) | (_ & Hw & out & Hfs)])].
  - rewrite Hframe by (rewrite ?Ht, ?Hw; discriminate).
    now rewrite Hfs by exact Hq1.
  - rewrite Hframe by (rewrite ?Ht, ?Hw; congruence).
    now rewrite Hfs by exact Hq1.
  - rewrite Hframe by (rewrite ?Ht, ?Hw; congruence).
    rewrite Hfs. unfold saved. cbn [fs enter_try].
    destruct out; now rewrite !lookup_insert_ne.
Qed.

(** X3: when no write and no removal fails and nothing sits at the derived
    output path beforehand, the request leaves the disk exactly as it found
    it, on every path through the handler. *)
Theorem disk_is_restored (file : UploadFile) (language : option string) (s : State) :
  (forall name data files, write_error env name data files = None) ->
  (forall p files, remove_error env p files = None) ->
  (forall stem, tempfile_stem env (fs s) = inr stem -> fs s !! wav_of stem = None) ->
  fs (state_of (transcribe_audio env file language s)) = fs s.
Proof.
  unfold wav_of. intros Hwrite Hremove Hfree.
  destruct (Z.le_gt_cases (Z.of_nat (length (read file))) (25 * 2 ^ 20)) as [Hle|Hgt];
    [|now rewrite transcribe_audio_too_large by exact Hgt].
  destruct (transcribe_audio_accepted env file language s Hle)
    as (r & s1 & evs1 & s2 & evs2 & Ep & Ef & _ & Hgone & Eq).
  rewrite Eq. unfold state_of. cbn [fst snd].
  destruct (finally_block_frame s1) as (Hframe & Hfailed).
  rewrite Ef in Hframe, Hfailed. unfold state_of, events_of in Hframe, Hfailed.
  cbn [fst snd] in Hframe, Hfailed.
  assert (Hclean : forall p, p <> EmptyString ->
            tmp_input_path s1 = Some p \/ wav_path s1 = Some p -> fs s2 !! p = None).
  { intros p Hne Hp. destruct (Hgone p Hne Hp) as [Hnone|Hin]; [exact Hnone|].
    destruct (Hfailed p Hin) as (files & e & He). now rewrite Hremove in He. }
  apply map_eq. intros q.
  destruct (protected_disk _ _ _ _ _ _ Ep eq_refl eq_refl)
    as [(Hfs & Ht & Hw & _) | (stem & Hstem & Hfresh & Hcase)].
  { rewrite Hframe by (rewrite ?Ht, ?Hw; discriminate). now rewrite Hfs. }
  cbn [fs enter_try] in *.
  destruct Hcase as [((e & He) & _) | (Ht & [(_ & Hw & Hfs) | (_ & Hw & out & Hfs)])].
  - now rewrite Hwrite in He.
  - destruct (decide (q = stem +:+ ".ogg")) as [->|Hq].
    + rewrite Hclean; auto using ogg_name_nonempty.
    + rewrite Hframe by (rewrite ?Ht, ?Hw; congruence).
      now rewrite Hfs by exact Hq.
  - destruct (decide (q = stem +:+ ".ogg")) as [->|Hq].
    { rewrite Hclean; auto using ogg_name_nonempty. }
    destruct (decide (q = PyStr.replace (stem +:+ ".ogg") ".ogg" ".wav")) as [->|Hq'].
    { rewrite Hclean; auto using ogg_name_nonempty, wav_name_nonempty.
      symmetry. now apply Hfree. }
    rewrite Hframe by (rewrite ?Ht, ?Hw; congruence).
    rewrite Hfs. unfold saved. destruct out; now rewrite !lookup_insert_ne.
Qed.

(** X4: a file that already sits at the derived output path is deleted by
    the request's cleanup once the upload has been saved, whatever the
    converter does, unless its removal fails: the handler can delete a file
    it did not create. *)
Theorem existing_output_path_is_deleted (file : UploadFile) (language : option string)
    (s : State) (stem : string) (d : list byte) :
  Z.of_nat (length (read file)) <= 25 * 2 ^ 20 ->
  tempfile_stem env (fs s) = inr stem ->
  fs s !! ogg_of stem = None ->
  write_error env (ogg_of stem) (read file) (<[ogg_of stem := []]> (fs s)) = None ->
  close_error env (ogg_of stem) (saved stem (read file) (fs s)) = None ->
  fs s !! wav_of stem = Some d ->
  (forall files, remove_error env (wav_of stem) files = None) ->
  fs (state_of (transcribe_audio env file language s)) !! wav_of stem = None.
Proof.
  unfold ogg_of, wav_of. intros Hle Hstem Hfresh Hwrite Hclose Hthere Hremove.
  destruct (transcribe_audio_accepted env file language s Hle)
    as (r & s1 & evs1 & s2 & evs2 & Ep & Ef & _ & Hgone & Eq).
  rewrite Eq. unfold state_of. cbn [fst snd].
  destruct (finally_block_frame s1) as (_ & Hfailed).
  rewrite Ef in Hfailed. unfold events_of in Hfailed. cbn [snd] in Hfailed.
  destruct (protected_disk _ _ _ _ _ _ Ep eq_refl eq_refl)
    as [(_ & _ & _ & Hno) | (stem' & Hstem' & _ & Hcase)]; cbn [fs enter_try] in *.
  { rewrite Hstem, Hfresh in Hno. now destruct Hno. }
  rewrite Hstem in Hstem'. injection Hstem' as <-.
  destruct Hcase as [((e & He) & _) | (_ & [((e & He) & _) | (_ & Hw & _)])].
  - now rewrite Hwrite in He.
  - now rewrite Hclose in He.
  - destruct (Hgone (PyStr.replace (stem +:+ ".ogg") ".ogg" ".wav")) as [Hnone|Hin];
      auto using ogg_name_nonempty, wav_name_nonempty.
    destruct (Hfailed _ Hin) as (files & e & He). now rewrite Hremove in He.
Qed.

(** X5: the reply to the transcribe endpoint, case by case.  When reading
    the upload raises, before the [try] statement, nothing but the arrival
    line has happened: an [HTTPException] is answered with its own status and
    detail, and any other exception reaches the handler registered for
    [Exception], which logs it and answers 500 "Internal server error".
    When the read returns more than 25 MiB the reply is a 413 with the detail
    "File too large. Max 25MB.".  Otherwise the reply follows the outcome of
    the [try] block: a 200 carrying the response it returned, or a 500 whose
    detail is [str] of the very exception it raised, which is also logged;
    the framework then adds no event of its own, so the handler registered
    for [Exception] does not run. *)
Theorem transcribe_reply_cases (declared_name declared_type : option string)
    (body : Exn + list byte) (language : option string) (s : State) :
  let line := "Received file: " +:+ fmt declared_name
              +:+ ", type: " +:+ fmt declared_type in
  let endpoint := transcribe_body env declared_name declared_type body language in
  let run := respond env Transcription endpoint s in
  match body with
  | inl (HTTPException c d) =>
      run = (Returned {| status_code := c; content := Detail d |}, s, [LogInfo line])
  | inl (PyError m) =>
      run = (Returned {| status_code := 500; content := Detail "Internal server error" |},
             s, [LogInfo line; LogError ("Unhandled exception: " +:+ m)])
  | inr contents =>
      if 25 * 2 ^ 20 <? Z.of_nat (length contents)
      then
        run = (Returned {| status_code := 413;
                           content := Detail "File too large. Max 25MB." |},
               s, [LogInfo line])
      else
        events_of run = events_of (endpoint s) /\
        match result_of (try_block env contents language (enter_try s)) with
        | Returned r =>
            result_of (endpoint s) = Returned r /\
            result_of run = Returned {| status_code := 200; content := Transcription r |}
        | Raised e =>
            result_of (endpoint s) = Raised (HTTPException 500 (str env e)) /\
            result_of run
            = Returned {| status_code := 500; content := Detail (str env e) |} /\
            LogError ("Transcription error: " +:+ str env e) ∈ events_of run
        end
  end.
Proof.
  cbv zeta. destruct body as [[c d|m]|contents].
  - reflexivity.
  - reflexivity.
  - set (file := {| filename := declared_name; content_type := declared_type;
                    read := contents |}).
    change (transcribe_body env declared_name declared_type (inr contents) language)
      with (transcribe_audio env file language).
    change ("Received file: " +:+ fmt declared_name +:+ ", type: " +:+ fmt declared_type)
      with (received_line file).
    change contents with (read file). unfold respond.
    destruct (Z.ltb_spec (25 * 2 ^ 20) (Z.of_nat (length (read file)))) as [Hgt|Hle].
    + now rewrite transcribe_audio_too_large by exact Hgt.
    + destruct (transcribe_audio_accepted env file language s Hle)
        as (r & s1 & evs1 & s2 & evs2 & Ep & Ef & _ & _ & Eq).
      rewrite Eq. clear Eq Ef. unfold try_except in Ep.
      destruct (try_block env (read file) language (enter_try s)) as [[[a|e] s'] evs'].
      * injection Ep as <- <- <-. unfold result_of, events_of. cbn [fst snd].
        split_and!; reflexivity.
      * unfold except_clause in Ep. run. injection Ep as <- <- <-.
        split_and!; try reflexivity.
        apply list_elem_of_further, elem_of_app. left.
        apply elem_of_app. right. in_list.
Qed.

(** The calls of an accepted request are those of its [try] block. *)
Lemma calls_of_request (line : string) (evs1 evs2 : list Event) :
  (forall ev, ev ∈ evs2 -> exists p, ev = Removed p \/ ev = RemoveFailed p) ->
  converter_calls (LogInfo line :: evs1 ++ evs2) = converter_calls evs1 /\
  recognizer_calls (LogInfo line :: evs1 ++ evs2) = recognizer_calls evs1.
Proof.
  intros H. destruct (removals_call_nothing evs2 H) as (Hc & Hr). simpl.
  rewrite converter_calls_app, recognizer_calls_app, Hc, Hr, !app_nil_r. now split.
Qed.

(** X6: a request runs the converter at most once, never for an upload above
    the size limit, always as ffmpeg -i <copy> -ar 16000 -ac 1 -f wav <out>
    on the upload copy and the path derived from it, and only after the
    bytes of the upload have been written to the copy. *)
Theorem converter_runs_once_after_write (file : UploadFile) (language : option string)
    (s : State) :
  (25 * 2 ^ 20 < Z.of_nat (length (read file)) ->
   converter_calls (events_of (transcribe_audio env file language s)) = []) /\
  (converter_calls (events_of (transcribe_audio env file language s)) = [] \/
   exists stem before after,
     tempfile_stem env (fs s) = inr stem /\
     converter_calls (events_of (transcribe_audio env file language s))
       = [["ffmpeg"; "-i"; ogg_of stem; "-ar"; "16000"; "-ac"; "1"; "-f"; "wav";
           wav_of stem]] /\
     events_of (transcribe_audio env file language s)
       = before ++ ConverterRun (ffmpeg_argv (ogg_of stem) (wav_of stem)) :: after /\
     FileWritten (ogg_of stem) (read file) ∈ before).
Proof.
  unfold ogg_of, wav_of.
  destruct (Z.le_gt_cases (Z.of_nat (length (read file))) (25 * 2 ^ 20)) as [Hle|Hgt].
  - destruct (transcribe_audio_accepted env file language s Hle)
      as (r & s1 & evs1 & s2 & evs2 & Ep & Ef & Hev & _ & Eq).
    rewrite Eq. unfold events_of. cbn [snd].
    destruct (calls_of_request (received_line file) evs1 evs2 Hev) as (-> & _).
    split; [lia|].
    destruct (protected_calls _ _ _ _ _ _ Ep)
      as ([Hnone | (stem & before & after & Hstem & Hone & -> & Hin)] & _);
      [now left | right].
    exists stem, (LogInfo (received_line file) :: before), (after ++ evs2).
    split_and!; [exact Hstem | exact Hone | | now apply list_elem_of_further].
    simpl. now rewrite <- app_assoc.
  - rewrite transcribe_audio_too_large by exact Hgt. unfold events_of. cbn [snd].
    split; [reflexivity | now left].
Qed.

(** X7: a request calls the recognizer at most once, with the derived output
    path, the caller's language hint and fp16 off, and only when the
    converter has returned exit status 0 on the saved upload; when the
    converter raises or exits with another status, the recognizer is never
    called. *)
Theorem recognizer_runs_only_after_conversion (file : UploadFile)
    (language : option string) (s : State) :
  (recognizer_calls (events_of (transcribe_audio env file language s)) = [] \/
   exists stem cp out,
     tempfile_stem env (fs s) = inr stem /\
     ffmpeg env (ffmpeg_argv (ogg_of stem) (wav_of stem)) (saved stem (read file) (fs s))
       = inr (cp, out) /\
     returncode cp = 0 /\
     recognizer_calls (events_of (transcribe_audio env file language s))
       = [(wav_of stem, language, false)]) /\
  (forall stem,
     tempfile_stem env (fs s) = inr stem ->
     (forall cp out,
        ffmpeg env (ffmpeg_argv (ogg_of stem) (wav_of stem)) (saved stem (read file) (fs s))
          = inr (cp, out) -> returncode cp <> 0) ->
     recognizer_calls (events_of (transcribe_audio env file language s)) = []).
Proof.
  unfold ogg_of, wav_of.
  destruct (Z.le_gt_cases (Z.of_nat (length (read file))) (25 * 2 ^ 20)) as [Hle|Hgt].
  - destruct (transcribe_audio_accepted env file language s Hle)
      as (r & s1 & evs1 & s2 & evs2 & Ep & Ef & Hev & _ & Eq).
    rewrite Eq. unfold events_of. cbn [snd].
    destruct (calls_of_request (received_line file) evs1 evs2 Hev) as (_ & ->).
    destruct (protected_calls _ _ _ _ _ _ Ep)
      as (_ & [Hnone | (stem & cp & out & Hstem & Hff & Hrc & Hone)]).
    + split; [now left | intros; exact Hnone].
    + split.
      * right. exists stem, cp, out. auto.
      * intros stem' Hstem' Hbad. cbn [fs enter_try] in *.
        rewrite Hstem in Hstem'. injection Hstem' as <-.
        destruct (Hbad cp out Hff Hrc).
  - rewrite transcribe_audio_too_large by exact Hgt. unfold events_of. cbn [snd].
    split; [now left | reflexivity].
Qed.

(** The run of the [try] block up to the recognizer's answer, when saving
    and converting succeed. *)
Lemma try_block_reaches_recognizer (contents : list byte) (language : option string)
    (s : State) (stem : string) (cp : CompletedProcess) (out : option (list byte)) :
  tmp_input_path s = None -> wav_path s = None ->
  tempfile_stem env (fs s) = inr stem ->
  fs s !! (stem +:+ ".ogg") = None ->
  write_error env (stem +:+ ".ogg") contents (<[stem +:+ ".ogg" := []]> (fs s)) = None ->
  close_error env (stem +:+ ".ogg") (saved stem contents (fs s)) = None ->
  ffmpeg env (ffmpeg_argv (stem +:+ ".ogg") (wav_of stem)) (saved stem contents (fs s))
    = inr (cp, out) ->
  returncode cp = 0 ->
  exists s1 evs1,
    result_of (try_block env contents language s)
    = match whisper_transcribe env (wav_of stem) language false
              (converted stem contents out (fs s)) with
      | inl e => Raised e
      | inr res =>
          match r_text res with
          | None => Raised (PyError "'text'")
          | Some raw =>
              Returned
                {| TranscriptionResponse.transcript := PyStr.strip raw;
                   TranscriptionResponse.language := default "unknown" (r_language res);
                   TranscriptionResponse.tldr := make_tldr (PyStr.strip raw);
                   TranscriptionResponse.duration := r_duration res;
                   TranscriptionResponse.status := "success" |}
          end
      end /\
    try_block env contents language s
    = (result_of (try_block env contents language s), s1, evs1).
Proof.
  intros Ht Hw Hstem Hfresh Hwrite Hclose Hff Hrc.
  unfold converted, wav_of, saved, ffmpeg_argv in *. exec_try_block.
  rewrite Hstem, Hfresh. simpl. apply Z.eqb_eq in Hrc.
  destruct (length contents <=? buffer_size env)%nat; simpl;
    rewrite ?Hwrite; simpl; rewrite Hclose; simpl; rewrite Hff;
    destruct out; simpl; rewrite Hrc; simpl;
    (destruct (whisper_transcribe env _ language false _) as [e|res]; simpl;
     [eexists _, _; split; reflexivity|]);
    (destruct (r_text res); simpl; eexists _, _; split; reflexivity).
Qed.

(** The reply to an accepted upload, read off the outcome of the [try]
    block. *)
Lemma reply_of_try_block (file : UploadFile) (language : option string)
    (s s1 : State) (res : Result TranscriptionResponse.t) (evs1 : list Event) :
  Z.of_nat (length (read file)) <= 25 * 2 ^ 20 ->
  try_block env (read file) language (enter_try s) = (res, s1, evs1) ->
  result_of (respond env Transcription (transcribe_audio env file language) s)
  = match res with
    | Returned a => Returned {| status_code := 200; content := Transcription a |}
    | Raised e => Returned {| status_code := 500; content := Detail (str env e) |}
    end /\
  (forall e, res = Raised e ->
     LogError ("Transcription error: " +:+ str env e)
       ∈ events_of (respond env Transcription (transcribe_audio env file language) s)).
Proof.
  intros Hle Hb.
  destruct (transcribe_audio_accepted env file language s Hle)
    as (r & s1' & evs1' & s2 & evs2 & Ep & Ef & _ & _ & Eq).
  unfold respond. rewrite Eq. clear Eq Ef.
  unfold try_except in Ep. rewrite Hb in Ep. destruct res as [a|e].
  - injection Ep as <- <- <-. split; [reflexivity | discriminate].
  - unfold except_clause in Ep. run. injection Ep as <- <- <-.
    split; [reflexivity|]. intros e' [= <-].
    apply list_elem_of_further, elem_of_app. left.
    apply elem_of_app. right. in_list.
Qed.

(** X8: when the upload is saved and converted and the recognizer then
    raises, the reply is a 500 whose detail is [str] of the recognizer's
    exception, its raw message for an exception that is no structured HTTP
    error, and that message is logged. *)
Theorem recognition_failure_reply (file : UploadFile) (language : option string)
    (s : State) (stem : string) (cp : CompletedProcess) (out : option (list byte))
    (e : Exn) :
  Z.of_nat (length (read file)) <= 25 * 2 ^ 20 ->
  tempfile_stem env (fs s) = inr stem ->
  fs s !! ogg_of stem = None ->
  write_error env (ogg_of stem) (read file) (<[ogg_of stem := []]> (fs s)) = None ->
  close_error env (ogg_of stem) (saved stem (read file) (fs s)) = None ->
  ffmpeg env (ffmpeg_argv (ogg_of stem) (wav_of stem)) (saved stem (read file) (fs s))
    = inr (cp, out) ->
  returncode cp = 0 ->
  whisper_transcribe env (wav_of stem) language false
    (converted stem (read file) out (fs s)) = inl e ->
  result_of (respond env Transcription (transcribe_audio env file language) s)
    = Returned {| status_code := 500; content := Detail (str env e) |} /\
  LogError ("Transcription error: " +:+ str env e)
    ∈ events_of (respond env Transcription (transcribe_audio env file language) s).
Proof.
  unfold ogg_of. intros Hle Hstem Hfresh Hwrite Hclose Hff Hrc Hwh.
  destruct (try_block_reaches_recognizer (read file) language (enter_try s) stem cp out
              eq_refl eq_refl Hstem Hfresh Hwrite Hclose Hff Hrc)
    as (s1 & evs1 & Hres & Hb).
  cbn [fs enter_try] in Hres. rewrite Hwh in Hres. rewrite Hres in Hb.
  destruct (reply_of_try_block file language s s1 _ evs1 Hle Hb) as (Hreply & Hlog).
  split; [exact Hreply | exact (Hlog e eq_refl)].
Qed.

(** X9: when the recognizer's result has no "text" key, the lookup raises
    and the reply is a 500 whose detail is the quoted key name. *)
Theorem missing_text_reply (file : UploadFile) (language : option string)
    (s : State) (stem : string) (cp : CompletedProcess) (out : option (list byte))
    (res : WhisperResult) :
  Z.of_nat (length (read file)) <= 25 * 2 ^ 20 ->
  tempfile_stem env (fs s) = inr stem ->
  fs s !! ogg_of stem = None ->
  write_error env (ogg_of stem) (read file) (<[ogg_of stem := []]> (fs s)) = None ->
  close_error env (ogg_of stem) (saved stem (read file) (fs s)) = None ->
  ffmpeg env (ffmpeg_argv (ogg_of stem) (wav_of stem)) (saved stem (read file) (fs s))
    = inr (cp, out) ->
  returncode cp = 0 ->
  whisper_transcribe env (wav_of stem) language false
    (converted stem (read file) out (fs s)) = inr res ->
  r_text res = None ->
  result_of (respond env Transcription (transcribe_audio env file language) s)
    = Returned {| status_code := 500; content := Detail "'text'" |}.
Proof.
  unfold ogg_of. intros Hle Hstem Hfresh Hwrite Hclose Hff Hrc Hwh Htext.
  destruct (try_block_reaches_recognizer (read file) language (enter_try s) stem cp out
              eq_refl eq_refl Hstem Hfresh Hwrite Hclose Hff Hrc)
    as (s1 & evs1 & Hres & Hb).
  cbn [fs enter_try] in Hres. rewrite Hwh, Htext in Hres. rewrite Hres in Hb.
  exact (proj1 (reply_of_try_block file language s s1 _ evs1 Hle Hb)).
Qed.

(** Text that is all white space strips to the empty string. *)
Lemma strip_all_space (raw : string) :
  PyStr.all_space raw = true -> PyStr.strip raw = EmptyString.
Proof.
  unfold PyStr.strip. intros H.
  assert (Hl : PyStr.lstrip raw = EmptyString).
  { induction raw as [|c raw IH]; [reflexivity|]. simpl in *.
    apply andb_true_iff in H as (Hc & Hr). rewrite Hc. auto. }
  now rewrite Hl.
Qed.

(** X10: when a fresh temporary name is available, the write and the close
    succeed, ffmpeg exits with status 0 and the recognizer returns a result
    with a text, the reply is a 200 that carries the stripped text, the
    language or "unknown", the tldr of the stripped text, the duration and
    the status "success"; for a text that is all white space (silence) the
    transcript and the tldr are empty. *)
Theorem successful_reply (file : UploadFile) (language : option string)
    (s : State) (stem : string) (cp : CompletedProcess) (out : option (list byte))
    (res : WhisperResult) (raw : string) :
  Z.of_nat (length (read file)) <= 25 * 2 ^ 20 ->
  tempfile_stem env (fs s) = inr stem ->
  fs s !! ogg_of stem = None ->
  write_error env (ogg_of stem) (read file) (<[ogg_of stem := []]> (fs s)) = None ->
  close_error env (ogg_of stem) (saved stem (read file) (fs s)) = None ->
  ffmpeg env (ffmpeg_argv (ogg_of stem) (wav_of stem)) (saved stem (read file) (fs s))
    = inr (cp, out) ->
  returncode cp = 0 ->
  whisper_transcribe env (wav_of stem) language false
    (converted stem (read file) out (fs s)) = inr res ->
  r_text res = Some raw ->
  result_of (respond env Transcription (transcribe_audio env file language) s)
    = Returned
        {| status_code := 200;
           content :=
             Transcription
               {| TranscriptionResponse.transcript := PyStr.strip raw;
                  TranscriptionResponse.language := default "unknown" (r_language res);
                  TranscriptionResponse.tldr := make_tldr (PyStr.strip raw);
                  TranscriptionResponse.duration := r_duration res;
                  TranscriptionResponse.status := "success" |} |} /\
  (PyStr.all_space raw = true ->
   result_of (respond env Transcription (transcribe_audio env file language) s)
   = Returned
       {| status_code := 200;
          content :=
            Transcription
              {| TranscriptionResponse.transcript := "";
                 TranscriptionResponse.language := default "unknown" (r_language res);
                 TranscriptionResponse.tldr := "";
                 TranscriptionResponse.duration := r_duration res;
                 TranscriptionResponse.status := "success" |} |}).
Proof.
  unfold ogg_of. intros Hle Hstem Hfresh Hwrite Hclose Hff Hrc Hwh Htext.
  destruct (try_block_reaches_recognizer (read file) language (enter_try s) stem cp out
              eq_refl eq_refl Hstem Hfresh Hwrite Hclose Hff Hrc)
    as (s1 & evs1 & Hres & Hb).
  cbn [fs enter_try] in Hres. rewrite Hwh, Htext in Hres. rewrite Hres in Hb.
  destruct (reply_of_try_block file language s s1 _ evs1 Hle Hb) as (Hreply & _).
  split; [exact Hreply|].
  intros Hblank. rewrite Hreply, (strip_all_space raw Hblank). reflexivity.
Qed.

End DiskAndCalls.

(** * The derived output path and the summary *)

Section PathsAndSummary.

#[local] Arguments String.append !_ _ / : simpl nomatch.

Lemma append_assoc (a b c : string) : (a +:+ b) +:+ c = a +:+ (b +:+ c).
Proof. induction a as [|x a IH]; simpl; [reflexivity | now rewrite IH]. Qed.

Lemma startswith_length (s p : string) :
  PyStr.startswith s p = true -> (String.length p <= String.length s)%nat.
Proof.
  intros H. destruct (startswith_inv s p H) as (u & ->).
  rewrite length_app. lia.
Qed.

(** One step of the scan of [replace] on a non-empty string. *)
Lemma replace_from_cons (old new : string) (c : ascii) (s : string) :
  PyStr.replace_from old new 0 (String c s)
  = if PyStr.startswith (String c s) old
    then new +:+ PyStr.replace_from old new (String.length old - 1) s
    else String c (PyStr.replace_from old new 0 s).
Proof. reflexivity. Qed.

(** Replacing by a string of the same length keeps the length. *)
Lemma replace_from_length (old new : string) :
  String.length old = String.length new -> old <> EmptyString ->
  forall (s : string) (k : nat),
    (k <= String.length s)%nat ->
    String.length (PyStr.replace_from old new k s) = (String.length s - k)%nat.
Proof.
  intros Hlen Hold. induction s as [|c s IH]; intros k Hk; simpl in Hk.
  - destruct k; [reflexivity | lia].
  - destruct k as [|k].
    + rewrite replace_from_cons.
      destruct (PyStr.startswith (String c s) old) eqn:E.
      * apply startswith_length in E. simpl in E.
        assert (0 < String.length old)%nat by (destruct old; [congruence | simpl; lia]).
        rewrite length_app, IH by lia. simpl. lia.
      * simpl. rewrite IH by lia. lia.
    + simpl. apply IH. lia.
Qed.

(** A string that holds ".ogg" somewhere is changed by the replacement. *)
Lemma replace_changes (a b : string) :
  PyStr.replace (a +:+ ".ogg" +:+ b) ".ogg" ".wav" <> a +:+ ".ogg" +:+ b.
Proof.
  unfold PyStr.replace. induction a as [|c a IH].
  - simpl. discriminate.
  - change (String c a +:+ ".ogg" +:+ b) with (String c (a +:+ ".ogg" +:+ b)).
    rewrite replace_from_cons.
    destruct (PyStr.startswith (String c (a +:+ ".ogg" +:+ b)) ".ogg") eqn:E.
    + destruct (startswith_inv _ _ E) as (u & Hu). rewrite Hu. simpl. discriminate.
    + intros [= H]. exact (IH H).
Qed.

(** The scan copies a prefix without dots unchanged. *)
Lemma replace_from_dot_free (a r : string) :
  dot_free a = true ->
  PyStr.replace_from ".ogg" ".wav" 0 (a +:+ r)
  = a +:+ PyStr.replace_from ".ogg" ".wav" 0 r.
Proof.
  induction a as [|c a IH]; intros H; [reflexivity|].
  simpl in H. apply andb_true_iff in H as (Hc & Ha).
  change (String c a +:+ r) with (String c (a +:+ r)).
  rewrite replace_from_cons.
  assert (E : PyStr.startswith (String c (a +:+ r)) ".ogg" = false).
  { change (PyStr.startswith (String c (a +:+ r)) ".ogg")
      with (if Ascii.eqb "." c then PyStr.startswith (a +:+ r) "ogg" else false).
    rewrite Ascii.eqb_sym. apply negb_true_iff in Hc. now rewrite Hc. }
  rewrite E, (IH Ha). reflexivity.
Qed.

(** The scan at an occurrence of ".ogg". *)
Lemma replace_from_match (r : string) :
  PyStr.replace_from ".ogg" ".wav" 0 (".ogg" +:+ r)
  = ".wav" +:+ PyStr.replace_from ".ogg" ".wav" 0 r.
Proof. destruct r; reflexivity. Qed.

(** X11: the output path the handler derives for the converter always
    differs from the path of the upload copy, and has the same length. *)
Theorem output_path_differs_from_input (stem : string) :
  wav_of stem <> ogg_of stem /\
  String.length (wav_of stem) = String.length (ogg_of stem).
Proof.
  unfold wav_of, ogg_of. split.
  - exact (replace_changes stem EmptyString).
  - unfold PyStr.replace.
    rewrite (replace_from_length ".ogg" ".wav" eq_refl ltac:(discriminate)) by lia.
    lia.
Qed.

(** X12: for a temporary name without a dot before its suffix, the derived
    output path is the same name with ".wav" for ".ogg"; and since [replace]
    rewrites every occurrence, a ".ogg" inside the directory part of the
    name is rewritten as well, so the output path then lies in another
    directory. *)
Theorem output_path_of_dot_free_name (a : string) :
  dot_free a = true ->
  wav_of a = a +:+ ".wav" /\
  forall b, wav_of (a +:+ ".ogg" +:+ b) = a +:+ ".wav" +:+ wav_of b.
Proof.
  intros H. unfold wav_of, PyStr.replace. split.
  - rewrite (replace_from_dot_free a ".ogg" H). reflexivity.
  - intros b. rewrite !append_assoc.
    rewrite (replace_from_dot_free a _ H), replace_from_match. reflexivity.
Qed.

Lemma slice_to_app (a b : string) : PyStr.slice_to (String.length a) (a +:+ b) = a.
Proof. induction a as [|c a IH]; simpl; [now destruct b | now rewrite IH]. Qed.

(** X13: the summary has the length of the text when the text has at most
    150 characters and exactly 153 characters otherwise, and summarising a
    summary again changes nothing. *)
Theorem tldr_length_and_idempotence (text : string) :
  String.length (make_tldr text)
  = (if (String.length text <=? 150)%nat then String.length text else 153%nat) /\
  make_tldr (make_tldr text) = make_tldr text.
Proof.
  destruct (Nat.leb_spec (String.length text) 150) as [Hshort|Hlong].
  - rewrite !make_tldr_short; rewrite ?make_tldr_short; auto.
  - rewrite (make_tldr_long text Hlong).
    assert (Hhead : String.length (PyStr.slice_to 150 text) = 150%nat)
      by (rewrite slice_to_length; lia).
    assert (Hlen : String.length (PyStr.slice_to 150 text +:+ "...") = 153%nat)
      by (rewrite length_app, Hhead; reflexivity).
    split; [exact Hlen|].
    rewrite make_tldr_long by lia.
    rewrite <- Hhead at 1. now rewrite slice_to_app.
Qed.

End PathsAndSummary.

(** * More concrete runs *)

(** 6000 bytes on a disk with room for 1024: the write raises, the reply is
    a 500 with the message of the write, nothing is removed, and the
    temporary file stays behind with the 1024 bytes that landed. *)
Lemma failed_write_strands_the_copy_witness :
  (buffer_size full_disk_env < length (read six_thousand_bytes))%nat /\
  result_of (transcribe_audio full_disk_env six_thousand_bytes None idle)
    = Raised (HTTPException 500 "[Errno 28] No space left on device") /\
  fs (state_of (transcribe_audio full_disk_env six_thousand_bytes None idle))
    !! ogg_of "/tmp/tmpk3x9_q2a" = Some (repeat x00 1024) /\
  (forall p,
     (Removed p ∉ events_of (transcribe_audio full_disk_env six_thousand_bytes None idle)) /\
     (RemoveFailed p
        ∉ events_of (transcribe_audio full_disk_env six_thousand_bytes None idle))).
Proof.
  assert (Hbig : (buffer_size full_disk_env < length (read six_thousand_bytes))%nat)
    by (apply Nat.ltb_lt; vm_compute; reflexivity).
  destruct (failed_write_strands_the_copy full_disk_env six_thousand_bytes None idle
              "/tmp/tmpk3x9_q2a" (PyError "[Errno 28] No space left on device")
              ltac:(vm_compute; discriminate) eq_refl eq_refl Hbig
              ltac:(vm_compute; reflexivity))
    as (_ & _ & Hkept & Hend).
  assert (Hclose :
    close_error full_disk_env (ogg_of "/tmp/tmpk3x9_q2a")
      (<[ogg_of "/tmp/tmpk3x9_q2a" :=
           landed full_disk_env "/tmp/tmpk3x9_q2a" (read six_thousand_bytes) (fs idle)]>
         (<[ogg_of "/tmp/tmpk3x9_q2a" := []]> (fs idle))) = None)
    by (vm_compute; reflexivity).
  rewrite Hclose in Hend. destruct Hend as (Hreply & Hfile).
  split_and!; [exact Hbig | exact Hreply | | exact Hkept].
  rewrite Hfile. vm_compute. reflexivity.
Defined.

(** The connection drops while the upload is read: the exception leaves the
    handler before its [try] statement, and the client reads the generic
    message of the handler registered for [Exception]. *)
Example failed_read_reaches_the_general_handler :
  respond quiet_env Transcription
    (transcribe_body quiet_env (Some "note.ogg") (Some "audio/ogg")
       (inl (PyError "Connection reset by peer")) None) idle
  = (Returned {| status_code := 500; content := Detail "Internal server error" |},
     idle,
     [LogInfo "Received file: note.ogg, type: audio/ogg";
      LogError "Unhandled exception: Connection reset by peer"]).
Proof. vm_compute. reflexivity. Qed.

(** An unrelated file stays as it was through a successful request. *)
Lemma other_files_untouched_witness :
  fs crowded !! "/srv/keep.txt" = Some [x6f; x6b] /\
  fs (state_of (transcribe_audio quiet_env ogg_upload None crowded)) !! "/srv/keep.txt"
    = fs crowded !! "/srv/keep.txt".
Proof.
  split; [vm_compute; reflexivity|].
  apply (other_files_untouched quiet_env ogg_upload None crowded "/srv/keep.txt").
  intros stem [= <-]. split; intros H; vm_compute in H; discriminate H.
Defined.

(** A successful request on a disk that holds one unrelated file leaves
    exactly that disk behind. *)
Lemma disk_is_restored_witness :
  fs (state_of (transcribe_audio quiet_env ogg_upload None tidy)) = fs tidy.
Proof.
  apply (disk_is_restored quiet_env ogg_upload None tidy).
  - intros name data files. reflexivity.
  - intros p files. reflexivity.
  - intros stem [= <-]. vm_compute. reflexivity.
Defined.

(** ffmpeg rejects the upload and writes nothing, yet the file that sat at
    the derived output path is gone after the request. *)
Lemma existing_output_path_is_deleted_witness :
  fs crowded !! wav_of "/tmp/tmpk3x9_q2a" = Some [x00] /\
  fs (state_of (transcribe_audio rejecting_env ogg_upload None crowded))
    !! wav_of "/tmp/tmpk3x9_q2a" = None.
Proof.
  split; [vm_compute; reflexivity|].
  apply (existing_output_path_is_deleted rejecting_env ogg_upload None crowded
           "/tmp/tmpk3x9_q2a" [x00]).
  - vm_compute; discriminate.
  - reflexivity.
  - vm_compute; reflexivity.
  - reflexivity.
  - reflexivity.
  - vm_compute; reflexivity.
  - intros files. reflexivity.
Defined.

(** Whisper raises "Failed to load audio": the client reads that message. *)
Lemma recognition_failure_reply_witness :
  result_of (respond deaf_env Transcription (transcribe_audio deaf_env ogg_upload None) idle)
    = Returned {| status_code := 500; content := Detail "Failed to load audio" |} /\
  LogError "Transcription error: Failed to load audio"
    ∈ events_of (respond deaf_env Transcription
                   (transcribe_audio deaf_env ogg_upload None) idle).
Proof.
  exact (recognition_failure_reply deaf_env ogg_upload None idle "/tmp/tmpk3x9_q2a"
           {| returncode := 0; stderr := "" |} (Some wav_bytes)
           (PyError "Failed to load audio")
           ltac:(vm_compute; discriminate)
           eq_refl eq_refl eq_refl eq_refl eq_refl eq_refl eq_refl).
Defined.

(** Whisper's result has no text: the client reads the quoted key. *)
Lemma missing_text_reply_witness :
  result_of (respond textless_env Transcription
               (transcribe_audio textless_env ogg_upload None) idle)
    = Returned {| status_code := 500; content := Detail "'text'" |}.
Proof.
  exact (missing_text_reply textless_env ogg_upload None idle "/tmp/tmpk3x9_q2a"
           {| returncode := 0; stderr := "" |} (Some wav_bytes)
           {| r_text := None; r_language := Some "en"; r_duration := None |}
           ltac:(vm_compute; discriminate)
           eq_refl eq_refl eq_refl eq_refl eq_refl eq_refl eq_refl eq_refl).
Defined.

(** Three seconds of silence: an empty transcript and tldr, the language
    "unknown", the duration passed on, and a 200. *)
Lemma successful_reply_witness :
  result_of (respond blank_env Transcription (transcribe_audio blank_env ogg_upload None) idle)
    = Returned
        {| status_code := 200;
           content :=
             Transcription
               {| TranscriptionResponse.transcript := "";
                  TranscriptionResponse.language := "unknown";
                  TranscriptionResponse.tldr := "";
                  TranscriptionResponse.duration := Some (3 # 1);
                  TranscriptionResponse.status := "success" |} |}.
Proof.
  exact (proj2 (successful_reply blank_env ogg_upload None idle "/tmp/tmpk3x9_q2a"
                  {| returncode := 0; stderr := "" |} (Some wav_bytes)
                  {| r_text := Some "   "; r_language := None;
                     r_duration := Some (3 # 1) |}
                  "   "
                  ltac:(vm_compute; discriminate)
                  eq_refl eq_refl eq_refl eq_refl eq_refl eq_refl eq_refl eq_refl)
               eq_refl).
Defined.

(** A temporary directory named /data/in.ogg.d: the output path lands in
    /data/in.wav.d. *)
Lemma output_path_of_dot_free_name_witness :
  wav_of "/data/in" = "/data/in.wav" /\
  forall b, wav_of ("/data/in" +:+ ".ogg" +:+ b) = "/data/in" +:+ ".wav" +:+ wav_of b.
Proof.
  exact (output_path_of_dot_free_name "/data/in" eq_refl).
Defined.
